(** * finvarta-whatsapp-service: recipients, WAHA client, bulk send and
      Kafka batch consumer

    A shallow embedding of [recipients.py], [waha_client.py] and the
    [send_bulk] / [consume_notifications] handlers of [main.py], with the
    properties of the delivery core stated over it.

    Conventions.
    - A Python [str] is a [string]; each [ascii] stands for the code point
      of the same number (U+0000 .. U+00FF).  In that range the decimal
      digits of Unicode are exactly '0'..'9', the white space of
      [str.strip] and the line boundaries of [str.splitlines] are the ones
      listed below.
    - Python integers are [Z].
    - A [dict] with hashable keys is a [gmap]; a decoded JSON object is an
      association list read with [dict_get].
    - Calls to the outside (HTTP, Kafka) are recorded in a [trace]; what the
      outside answers is read from an [Env] of oracles, each of which may
      depend on the history so far. *)

From Stdlib Require Import ZArith Ascii String Sorted.
From stdpp Require Import base option list strings gmap fin_maps.

Local Open Scope Z_scope.
Set Warnings "-register-all".
Set Default Proof Using "Type".

(** ** Python text primitives *)

Module Py.

Definition chars (s : string) : list ascii := list_ascii_of_string s.
Definition text (l : list ascii) : string := string_of_list_ascii l.

Definition code (c : ascii) : Z := Z.of_N (N_of_ascii c).

(** [\d] of [re] on a [str] pattern, restricted to code points < 256. *)
Definition is_digit (c : ascii) : bool :=
  (48 <=? code c) && (code c <=? 57).

(** [str.isspace], code points < 256. *)
Definition is_space (c : ascii) : bool :=
  let n := code c in
  ((9 <=? n) && (n <=? 13)) || ((28 <=? n) && (n <=? 32))
  || (n =? 133) || (n =? 160).

(** Line boundaries of [str.splitlines] other than the pair CR LF. *)
Definition is_linebreak (c : ascii) : bool :=
  let n := code c in
  ((10 <=? n) && (n <=? 13)) || ((28 <=? n) && (n <=? 30)) || (n =? 133).

Definition is_cr (c : ascii) : bool := code c =? 13.
Definition is_lf (c : ascii) : bool := code c =? 10.

(** [str.splitlines()]: [cur] is the line being read, [after_cr] tells
    that the previous character was a CR (a following LF belongs to it). *)
Fixpoint splitlines_go (cur : list ascii) (after_cr : bool)
    (s : list ascii) : list (list ascii) :=
  match s with
  | [] => match cur with [] => [] | _ => [cur] end
  | c :: s' =>
      if after_cr && is_lf c then splitlines_go [] false s'
      else if is_linebreak c then cur :: splitlines_go [] (is_cr c) s'
      else splitlines_go (cur ++ [c]) false s'
  end.

Definition splitlines (s : string) : list string :=
  text <$> splitlines_go [] false (chars s).

Fixpoint lstrip (l : list ascii) : list ascii :=
  match l with
  | c :: l' => if is_space c then lstrip l' else l
  | [] => []
  end.

(** [str.strip()] *)
Definition strip (s : string) : string :=
  text (reverse (lstrip (reverse (lstrip (chars s))))).

(** [str.startswith] for a one-character prefix. *)
Definition startswith_char (c : ascii) (s : string) : bool :=
  match s with
  | String c' _ => bool_decide (c' = c)
  | EmptyString => false
  end.

(** [re.sub(r"\D", "", s)] *)
Definition digits_of (s : string) : string :=
  text (filter (fun c => is_digit c = true) (chars s)).

(** [len] *)
Definition len (s : string) : Z := Z.of_nat (String.length s).

(** ASCII part of [str.upper] / [str.lower].  No code point of the range
    modelled other than a letter a-z maps to an ASCII capital under
    [upper] (U+00DF becomes "SS", which occurs in neither status name
    compared below), and none other than A-Z maps into a-z under
    [lower]. *)
Definition upper_char (c : ascii) : ascii :=
  let n := code c in
  if (97 <=? n) && (n <=? 122) then ascii_of_N (Z.to_N (n - 32)) else c.
Definition lower_char (c : ascii) : ascii :=
  let n := code c in
  if (65 <=? n) && (n <=? 90) then ascii_of_N (Z.to_N (n + 32)) else c.
Definition upper (s : string) : string := text (upper_char <$> chars s).
Definition lower (s : string) : string := text (lower_char <$> chars s).

Fixpoint is_prefix (p s : list ascii) : bool :=
  match p, s with
  | [], _ => true
  | a :: p', b :: s' => bool_decide (a = b) && is_prefix p' s'
  | _ :: _, [] => false
  end.

Fixpoint contains_go (p s : list ascii) : bool :=
  is_prefix p s || match s with [] => false | _ :: s' => contains_go p s' end.

(** [sub in s] *)
Definition contains (sub s : string) : bool :=
  contains_go (chars sub) (chars s).

End Py.

(** ** recipients.py *)

(** [number_to_chat_id] *)
Definition number_to_chat_id (number : string) : option string :=
  let digits := Py.digits_of number in
  if 10 <=? Py.len digits then Some (digits +:+ "@c.us") else None.

(** One iteration of the [for line in text.splitlines()] loop of
    [load_recipients], on the pair [(seen, result)]. *)
Definition load_step (acc : gset string * list string) (line : string)
    : gset string * list string :=
  let '(seen, result) := acc in
  let line := Py.strip line in
  if bool_decide (line = "") || Py.startswith_char "#" line then acc
  else
    let digits := Py.digits_of line in
    if Py.len digits <? 10 then acc
    else
      let chat_id := digits +:+ "@c.us" in
      if bool_decide (chat_id ∈ seen) then acc
      else ({[chat_id]} ∪ seen, result ++ [chat_id]).

(** The loop of [load_recipients] over the lines of the file. *)
Definition load_lines (lines : list string) : list string :=
  (foldl load_step (∅, []) lines).2.

(** [load_recipients]: [file] is [None] when the path does not exist,
    otherwise the decoded text of the file. *)
Definition load_recipients (file : option string) : list string :=
  match file with
  | None => []
  | Some text => load_lines (Py.splitlines text)
  end.

(** ** Decoded JSON *)

(** What [json.loads] and [Response.json] return.  Numbers are integers;
    an object is the list of its items, read by key with [dict_get]. *)
Inductive json :=
  | JNull
  | JBool (b : bool)
  | JInt (z : Z)
  | JStr (s : string)
  | JArr (items : list json)
  | JObj (items : list (string * json)).

(** Python truth value, as taken by [bool(x)], [x or y] and [if x]. *)
Definition truthy (v : json) : bool :=
  match v with
  | JNull => false
  | JBool b => b
  | JInt z => negb (z =? 0)
  | JStr s => negb (bool_decide (s = ""))
  | JArr l => match l with [] => false | _ => true end
  | JObj l => match l with [] => false | _ => true end
  end.

(** [d.get(key)] on the items of a dict: [None] when the key is absent. *)
Fixpoint dict_get (d : list (string * json)) (key : string) : option json :=
  match d with
  | [] => None
  | (k, v) :: d' => if bool_decide (k = key) then Some v else dict_get d' key
  end.

(** [d.get(key, default)] *)
Definition dict_get_or (d : list (string * json)) (key : string) (dflt : json) : json :=
  default dflt (dict_get d key).

(** ** The outside world *)

(** [aiokafka.structs.TopicPartition] *)
Record TopicPartition := TP { topic : string; partition : Z }.

#[global] Instance TopicPartition_eq_dec : EqDecision TopicPartition.
Proof. solve_decision. Defined.

#[global] Instance TopicPartition_countable : Countable TopicPartition :=
  inj_countable' (fun tp => (topic tp, partition tp)) (fun p => TP p.1 p.2)
    (fun tp => match tp with TP _ _ => eq_refl end).

(** [ConsumerRecord]: the fields the consumer reads.  [value] is [None] for
    a null message value. *)
Record ConsumerRecord := Rec { offset : Z; value : option string }.

(** The dict returned by [getmany], in iteration order. *)
Definition Batch := list (TopicPartition * list ConsumerRecord).

(** Calls that leave the process, in the order they are made. *)
Inductive event :=
  | HttpGetSession (session : string)
  | HttpPostSendText (chat_id text session : string)
  | KafkaStart
  | KafkaGetmany (timeout_ms : Z)
  | KafkaCommit (offsets : gmap TopicPartition Z)
  | KafkaStop.

Definition trace := list event.

(** What an [httpx] request comes back with. *)
Inductive http_reply :=
  | ConnectError
  | TimeoutException
  | OtherRequestError
  | Response (status_code : Z) (body : string).

(** Configuration and the answers of the collaborators.  Every answer may
    depend on the calls made before it.  [json_loads] is [None] where
    [json.loads] (or the decoding before it) raises; [raise_for_status]
    tells for which status codes [Response.raise_for_status] raises; a
    Kafka call answers [false] or [None] where it raises. *)
Record Env := {
  default_session : string;
  recipients_file : option string;
  json_loads : string -> option json;
  raise_for_status : Z -> bool;
  http_get_session : trace -> string -> http_reply;
  http_post_sendtext : trace -> string -> string -> string -> http_reply;
  kafka_start : trace -> bool;
  kafka_getmany : trace -> Z -> option Batch;
  kafka_commit : trace -> gmap TopicPartition Z -> bool;
  kafka_stop : trace -> bool
}.

(** ** Results and exceptions *)

Inductive result (E A : Type) :=
  | Ok (a : A)
  | Raise (e : E).
Arguments Ok {E A} a.
Arguments Raise {E A} e.

(** Exceptions that leave [WAHAClient].  The message of each is kept as the
    values it is formatted from. *)
Inductive waha_error :=
  (* httpx.HTTPStatusError *)
  | SessionNotFound (session : string)
  | StatusQueryError (status_code : Z)
  | SessionNotReady (session : string) (status ready connected : json)
      (no_me_field : bool)
  | RequestAborted (status_code : Z) (session chat_id : string)
  | AuthenticationFailed (body : string)
  | ApiError (status_code : Z) (session chat_id body : string)
  | StatusRaised (status_code : Z)
  (* httpx.RequestError *)
  | StatusCheckFailed (session : string)
  | CannotConnect
  | SendTimedOut (session chat_id : string)
  | TransportError (reply : http_reply)
  (* others *)
  | JSONDecodeError
  | AttributeError.

(** [isinstance(e, httpx.HTTPStatusError)] *)
Definition is_http_status_error (e : waha_error) : bool :=
  match e with
  | SessionNotFound _ | StatusQueryError _ | SessionNotReady _ _ _ _ _
  | RequestAborted _ _ _ | AuthenticationFailed _ | ApiError _ _ _ _
  | StatusRaised _ => true
  | _ => false
  end.

(** ** waha_client.py *)

(** [session or self.default_session] *)
Definition session_or_default (env : Env) (session : option string) : string :=
  match session with
  | Some s => if bool_decide (s = "") then default_session env else s
  | None => default_session env
  end.

(** [WAHAClient.check_session_status] *)
Definition check_session_status (env : Env) (session : option string)
    (tr : trace) : result waha_error json * trace :=
  let session_name := session_or_default env session in
  let tr' := tr ++ [HttpGetSession session_name] in
  match http_get_session env tr session_name with
  | Response code body =>
      if raise_for_status env code then
        if code =? 404 then (Raise (SessionNotFound session_name), tr')
        else (Raise (StatusQueryError code), tr')
      else
        match json_loads env body with
        | Some j => (Ok j, tr')
        | None => (Raise JSONDecodeError, tr')
        end
  | r => (Raise (TransportError r), tr')
  end.

(** The readiness test of [send_text_message], on the decoded status. *)
Definition session_gate (session_name : string) (session_status : json)
    : result waha_error unit :=
  match session_status with
  | JObj d =>
      match dict_get_or d "status" (JStr "") with
      | JStr s =>
          let session_status_value := Py.upper s in
          let is_ready := dict_get_or d "ready" (JBool false) in
          let is_connected := dict_get_or d "connected" (JBool false) in
          let has_me_field := truthy (default JNull (dict_get d "me")) in
          if bool_decide (session_status_value = "CONNECTED") || truthy is_ready
          then Ok tt
          else if bool_decide (session_status_value = "WORKING") && has_me_field
          then Ok tt
          else Raise (SessionNotReady session_name
                        (dict_get_or d "status" (JStr "unknown"))
                        is_ready is_connected (negb has_me_field))
      | _ => Raise AttributeError
      end
  | _ => Raise AttributeError
  end.

(** The [except] clauses around the status check: an [HTTPStatusError] is
    re-raised as it is, anything else becomes a [RequestError]. *)
Definition status_check_handler (session_name : string) (e : waha_error)
    : waha_error :=
  if is_http_status_error e then e else StatusCheckFailed session_name.

(** The request to [/api/sendText] and the reading of its response. *)
Definition post_sendtext (env : Env) (chat_id text session_name : string)
    (tr : trace) : result waha_error json * trace :=
  let tr' := tr ++ [HttpPostSendText chat_id text session_name] in
  match http_post_sendtext env tr chat_id text session_name with
  | ConnectError => (Raise CannotConnect, tr')
  | TimeoutException => (Raise (SendTimedOut session_name chat_id), tr')
  | OtherRequestError => (Raise (TransportError OtherRequestError), tr')
  | Response code body =>
      if (code =? 0)
         || ((500 <=? code) && negb (bool_decide (body = ""))
             && Py.contains "aborted" (Py.lower body))
      then (Raise (RequestAborted code session_name chat_id), tr')
      else if code =? 401 then (Raise (AuthenticationFailed body), tr')
      else if 400 <=? code
      then (Raise (ApiError code session_name chat_id body), tr')
      else if raise_for_status env code then (Raise (StatusRaised code), tr')
      else
        match json_loads env body with
        | Some j => (Ok j, tr')
        | None => (Raise JSONDecodeError, tr')
        end
  end.

(** [WAHAClient.send_text_message] *)
Definition send_text_message (env : Env) (chat_id text : string)
    (session : option string) (tr : trace) : result waha_error json * trace :=
  let session_name := session_or_default env session in
  match check_session_status env (Some session_name) tr with
  | (Raise e, tr1) => (Raise (status_check_handler session_name e), tr1)
  | (Ok session_status, tr1) =>
      match session_gate session_name session_status with
      | Raise e => (Raise (status_check_handler session_name e), tr1)
      | Ok _ => post_sendtext env chat_id text session_name tr1
      end
  end.

(** ** main.py: models and exceptions *)

(** Text of an [error] field.  A literal is kept as written in the source;
    the text of an exception is kept as the exception it is printed from. *)
Inductive error_text :=
  | Literal (s : string)
  | JsonParseErrorText
  | ValidationErrorText
  | ExceptionText (e : waha_error).

Module BulkSendResultItem.
Record t := mk { chat_id : string; status : string; error : option error_text }.
End BulkSendResultItem.

Module BulkSendResponse.
Record t := mk {
  status : string; sent : Z; failed : Z;
  results : list BulkSendResultItem.t }.
End BulkSendResponse.

Module NotificationPayload.
Record t := mk {
  company_name : option string; pdf_url : option string;
  summary : string; number : string }.
End NotificationPayload.

Module ConsumeResultItem.
Record t := mk {
  number : string; company_name : option string;
  status : string; error : option error_text }.
End ConsumeResultItem.

Module ConsumeNotificationsResponse.
Record t := mk {
  status : string; processed : Z; failed : Z; skipped : Z;
  results : list ConsumeResultItem.t }.
End ConsumeNotificationsResponse.

(** Exceptions raised inside the [try] of [consume_notifications] that no
    inner handler catches. *)
Inductive body_exception :=
  | KafkaError
  | DictExpected
  | ResultItemInvalid.

Inductive http_detail :=
  | NoValidRecipients
  | CouldNotConnectKafka
  | UnexpectedError (e : body_exception).

(** What a handler raises: an [HTTPException], or an exception it lets
    through. *)
Inductive handler_exception :=
  | HTTPException (status_code : Z) (detail : http_detail)
  | Propagated (e : body_exception).

(** A field annotated [str] under pydantic: only a string is accepted. *)
Definition as_str (v : option json) : option string :=
  match v with
  | Some (JStr s) => Some s
  | _ => None
  end.

(** A field annotated [Optional[str] = None]: absent, null or a string. *)
Definition as_optional_str (v : option json) : option (option string) :=
  match v with
  | None | Some JNull => Some None
  | Some (JStr s) => Some (Some s)
  | Some _ => None
  end.

(** [NotificationPayload.model_validate(d)]; [None] is [ValidationError]. *)
Definition model_validate (d : json) : option NotificationPayload.t :=
  match d with
  | JObj items =>
      match as_optional_str (dict_get items "company_name"),
            as_optional_str (dict_get items "pdf_url"),
            as_str (dict_get items "summary"),
            as_str (dict_get items "number") with
      | Some c, Some p, Some s, Some n => Some (NotificationPayload.mk c p s n)
      | _, _, _, _ => None
      end
  | _ => None
  end.

(** ** main.py: send_bulk *)

(** Body of the [for chat_id in chat_ids] loop, on
    [(results, sent, failed)] and the trace. *)
Definition bulk_step (env : Env) (text : string) (session : option string)
    (acc : list BulkSendResultItem.t * Z * Z * trace) (chat_id : string)
    : list BulkSendResultItem.t * Z * Z * trace :=
  let '(results, sent, failed, tr) := acc in
  match send_text_message env chat_id text session tr with
  | (Ok _, tr') =>
      (results ++ [BulkSendResultItem.mk chat_id "success" None],
       sent + 1, failed, tr')
  | (Raise e, tr') =>
      (results ++ [BulkSendResultItem.mk chat_id "error" (Some (ExceptionText e))],
       sent, failed + 1, tr')
  end.

(** [send_bulk] *)
Definition send_bulk (env : Env) (text : string) (session : option string)
    (tr : trace) : result handler_exception BulkSendResponse.t * trace :=
  let chat_ids := load_recipients (recipients_file env) in
  match chat_ids with
  | [] => (Raise (HTTPException 400 NoValidRecipients), tr)
  | _ =>
      let '(results, sent, failed, tr') :=
        foldl (bulk_step env text session) ([], 0, 0, tr) chat_ids in
      (Ok (BulkSendResponse.mk "success" sent failed results), tr')
  end.

(** ** main.py: consume_notifications *)

(** The local variables of the handler that the loop updates. *)
Record Locals := mkLocals {
  results : list ConsumeResultItem.t;
  processed : Z;
  failed : Z;
  skipped : Z;
  last_committable : gmap TopicPartition Z
}.

Definition initial_locals : Locals := mkLocals [] 0 0 0 ∅.

(** [if tp not in last_committable or record.offset == last_committable[tp]:
       last_committable[tp] = next_off] *)
Definition advance (tp : TopicPartition) (record_offset : Z)
    (lc : gmap TopicPartition Z) : gmap TopicPartition Z :=
  let next_off := record_offset + 1 in
  match lc !! tp with
  | None => <[tp := next_off]> lc
  | Some cur => if record_offset =? cur then <[tp := next_off]> lc else lc
  end.

(** The block shared by the five skip branches. *)
Definition skip_record (st : Locals) (tp : TopicPartition)
    (record : ConsumerRecord) (item : ConsumeResultItem.t) : Locals :=
  mkLocals (results st ++ [item]) (processed st) (failed st) (skipped st + 1)
           (advance tp (offset record) (last_committable st)).

(** The [except] branch of the send: no change of [last_committable]. *)
Definition fail_record (st : Locals) (item : ConsumeResultItem.t) : Locals :=
  mkLocals (results st ++ [item]) (processed st) (failed st + 1) (skipped st)
           (last_committable st).

(** The end of the loop body, after a send that returned. *)
Definition succeed_record (st : Locals) (tp : TopicPartition)
    (record : ConsumerRecord) (item : ConsumeResultItem.t) : Locals :=
  mkLocals (results st ++ [item]) (processed st + 1) (failed st) (skipped st)
           (advance tp (offset record) (last_committable st)).

(** [ConsumeResultItem(number=d.get("number") or "",
    company_name=d.get("company_name"), status="skipped", error=str(e))]:
    the item is itself validated, [d] must be a dict. *)
Definition validation_item (d : json) : result body_exception ConsumeResultItem.t :=
  match d with
  | JObj items =>
      let number :=
        match dict_get items "number" with
        | Some v => if truthy v then v else JStr ""
        | None => JStr ""
        end in
      match as_str (Some number), as_optional_str (dict_get items "company_name") with
      | Some n, Some c =>
          Ok (ConsumeResultItem.mk n c "skipped" (Some ValidationErrorText))
      | _, _ => Raise ResultItemInvalid
      end
  | _ => Raise DictExpected
  end.

(** Body of the [for tp, record in recs] loop after the cap test. *)
Definition process_record (env : Env) (tp : TopicPartition)
    (record : ConsumerRecord) (st : Locals) (tr : trace)
    : result body_exception Locals * trace :=
  match value record with
  | None =>
      (Ok (skip_record st tp record
             (ConsumeResultItem.mk "" None "skipped"
                (Some (Literal "null message value")))), tr)
  | Some raw =>
      match json_loads env raw with
      | None =>
          (Ok (skip_record st tp record
                 (ConsumeResultItem.mk "" None "skipped" (Some JsonParseErrorText))),
           tr)
      | Some d =>
          match model_validate d with
          | None =>
              match validation_item d with
              | Ok item => (Ok (skip_record st tp record item), tr)
              | Raise e => (Raise e, tr)
              end
          | Some payload =>
              let number := NotificationPayload.number payload in
              let company_name := NotificationPayload.company_name payload in
              let summary := NotificationPayload.summary payload in
              if bool_decide (Py.strip summary = "") then
                (Ok (skip_record st tp record
                       (ConsumeResultItem.mk number company_name "skipped"
                          (Some (Literal "empty summary")))), tr)
              else
                match number_to_chat_id number with
                | None =>
                    (Ok (skip_record st tp record
                           (ConsumeResultItem.mk number company_name "skipped"
                              (Some (Literal "invalid number")))), tr)
                | Some chat_id =>
                    match send_text_message env chat_id summary None tr with
                    | (Raise e, tr') =>
                        (Ok (fail_record st
                               (ConsumeResultItem.mk number company_name "error"
                                  (Some (ExceptionText e)))), tr')
                    | (Ok _, tr') =>
                        (Ok (succeed_record st tp record
                               (ConsumeResultItem.mk number company_name "success"
                                  None)), tr')
                    end
                end
          end
      end
  end.

(** [max_messages is not None and (processed + failed + skipped) >= max_messages] *)
Definition cap_reached (max_messages : option Z) (st : Locals) : bool :=
  match max_messages with
  | Some m => m <=? processed st + failed st + skipped st
  | None => false
  end.

(** The [for tp, record in recs] loop; the cap test is its [break]. *)
Fixpoint process_records (env : Env) (max_messages : option Z)
    (recs : list (TopicPartition * ConsumerRecord)) (st : Locals) (tr : trace)
    : result body_exception Locals * trace :=
  match recs with
  | [] => (Ok st, tr)
  | (tp, record) :: rest =>
      if cap_reached max_messages st then (Ok st, tr)
      else
        match process_record env tp record st tr with
        | (Ok st', tr') => process_records env max_messages rest st' tr'
        | (Raise e, tr') => (Raise e, tr')
        end
  end.

(** [for tp, lst in batch.items(): for r in lst: recs.append((tp, r))] *)
Definition flatten_batch (batch : Batch) : list (TopicPartition * ConsumerRecord) :=
  batch ≫= (fun '(tp, lst) => (fun r => (tp, r)) <$> lst).

(** Order of the sort key [(x[0].topic, x[0].partition, x[1].offset)]. *)
Definition key_le (a b : TopicPartition * ConsumerRecord) : bool :=
  match String.compare (topic a.1) (topic b.1) with
  | Lt => true
  | Gt => false
  | Eq =>
      match partition a.1 ?= partition b.1 with
      | Lt => true
      | Gt => false
      | Eq => offset a.2 <=? offset b.2
      end
  end.

Fixpoint insert_by_key (x : TopicPartition * ConsumerRecord)
    (l : list (TopicPartition * ConsumerRecord)) :=
  match l with
  | [] => [x]
  | y :: l' => if key_le x y then x :: l else y :: insert_by_key x l'
  end.

(** [recs.sort(key=...)].  Python's sort is stable, and the stable sorted
    arrangement of a list is unique: it is computed here by insertion, an
    element going before the elements of the rest that are not smaller. *)
Definition sort_recs (recs : list (TopicPartition * ConsumerRecord)) :=
  foldr insert_by_key [] recs.

(** The [try] block: fetch, order, process, commit. *)
Definition consume_body (env : Env) (max_messages : option Z)
    (poll_timeout_ms : Z) (tr : trace) : result body_exception Locals * trace :=
  let tr1 := tr ++ [KafkaGetmany poll_timeout_ms] in
  match kafka_getmany env tr poll_timeout_ms with
  | None => (Raise KafkaError, tr1)
  | Some batch =>
      let recs := sort_recs (flatten_batch batch) in
      match process_records env max_messages recs initial_locals tr1 with
      | (Raise e, tr2) => (Raise e, tr2)
      | (Ok st, tr2) =>
          if bool_decide (last_committable st = ∅) then (Ok st, tr2)
          else
            let tr3 := tr2 ++ [KafkaCommit (last_committable st)] in
            if kafka_commit env tr2 (last_committable st) then (Ok st, tr3)
            else (Raise KafkaError, tr3)
      end
  end.

(** [consume_notifications] *)
Definition consume_notifications (env : Env) (max_messages : option Z)
    (poll_timeout_ms : Z) (tr : trace)
    : result handler_exception ConsumeNotificationsResponse.t * trace :=
  let tr1 := tr ++ [KafkaStart] in
  if negb (kafka_start env tr) then
    (Raise (HTTPException 503 CouldNotConnectKafka), tr1)
  else
    let '(r, tr2) := consume_body env max_messages poll_timeout_ms tr1 in
    let tr3 := tr2 ++ [KafkaStop] in
    if negb (kafka_stop env tr2) then (Raise (Propagated KafkaError), tr3)
    else
      match r with
      | Raise e => (Raise (HTTPException 500 (UnexpectedError e)), tr3)
      | Ok st =>
          (Ok (ConsumeNotificationsResponse.mk "success" (processed st)
                 (failed st) (skipped st) (results st)), tr3)
      end.

(** ** A small world to run the handlers in

    Raw message bodies and response bodies are named rather than spelled
    out; [demo_loads] is the decoding of each. *)

Definition demo_me : json := JObj [("id", JStr "911234567890@c.us")].

Definition demo_payload (summary number : string) : json :=
  JObj [("company_name", JStr "Acme"); ("pdf_url", JNull);
        ("summary", JStr summary); ("number", JStr number)].

Definition demo_loads (raw : string) : option json :=
  if bool_decide (raw = "status:working+me") then
    Some (JObj [("name", JStr "default"); ("status", JStr "WORKING"); ("me", demo_me)])
  else if bool_decide (raw = "status:working") then
    Some (JObj [("name", JStr "default"); ("status", JStr "WORKING")])
  else if bool_decide (raw = "status:connected-lowercase") then
    Some (JObj [("status", JStr "connected"); ("ready", JBool false)])
  else if bool_decide (raw = "sent") then Some (JObj [("id", JStr "true_1")])
  else if bool_decide (raw = "msg:alice") then
    Some (demo_payload "Results are out" "+91 9920906247")
  else if bool_decide (raw = "msg:bob") then
    Some (demo_payload "Board meeting" "919820000001")
  else if bool_decide (raw = "msg:short-number") then
    Some (demo_payload "Dividend declared" "12345")
  else if bool_decide (raw = "msg:unreachable") then
    Some (demo_payload "Rights issue" "910000000000")
  else None.

(** The gateway of the demo: the session answers with [status_body]; a
    send to 910000000000 times out, any other is accepted. *)
Definition demo_env (status_body : string) (file : option string)
    (batch : Batch) : Env := {|
  default_session := "default";
  recipients_file := file;
  json_loads := demo_loads;
  raise_for_status := fun code => negb ((200 <=? code) && (code <? 300));
  http_get_session := fun _ _ => Response 200 status_body;
  http_post_sendtext := fun _ chat_id _ _ =>
    if bool_decide (chat_id = "910000000000@c.us") then TimeoutException
    else Response 201 "sent";
  kafka_start := fun _ => true;
  kafka_getmany := fun _ _ => Some batch;
  kafka_commit := fun _ _ => true;
  kafka_stop := fun _ => true
|}.

Definition demo_tp : TopicPartition := TP "notification-payload" 0.

(** Two batches of one partition: offsets 5, 6, 8, and three records in a
    row of which the second has a short number and the third cannot be
    reached. *)
Definition demo_batch_gap : Batch :=
  [(demo_tp, [Rec 5 (Some "msg:alice"); Rec 6 (Some "msg:bob");
              Rec 8 (Some "msg:bob")])].

Definition demo_batch_mixed : Batch :=
  [(demo_tp, [Rec 10 (Some "msg:alice"); Rec (10 + 1) (Some "msg:short-number");
              Rec (10 + 2) (Some "msg:unreachable")])].

Definition demo_item (number status : string) (error : option error_text)
    : ConsumeResultItem.t :=
  ConsumeResultItem.mk number (Some "Acme") status error.

(** ** The resolver and the recipient list, in the words of the specification *)

Module Resolver.

(** A decimal digit, read off the character itself. *)
Definition is_decimal_digit (c : ascii) : bool :=
  match Ascii.is_nat c with Some _ => true | None => false end.

(** Strip all non-digit characters. *)
Fixpoint strip_non_digits (s : string) : string :=
  match s with
  | EmptyString => EmptyString
  | String c s' =>
      if is_decimal_digit c then String c (strip_non_digits s')
      else strip_non_digits s'
  end.

(** Number of digit characters of a string. *)
Fixpoint digit_count (s : string) : nat :=
  match s with
  | EmptyString => 0%nat
  | String c s' => ((if is_decimal_digit c then 1 else 0) + digit_count s')%nat
  end.

(** [normalize]: none below ten digits, else the digits and [@c.us]. *)
Definition normalize (raw : string) : option string :=
  if decide (digit_count raw < 10)%nat then None
  else Some (strip_non_digits raw +:+ "@c.us").

(** A line that carries an entry: not blank and not a comment, leading
    and trailing white space aside. *)
Definition is_entry_line (line : string) : bool :=
  negb (bool_decide (Py.strip line = ""))
  && negb (Py.startswith_char "#" (Py.strip line)).

(** Keep the first occurrence of every element, in order. *)
Fixpoint dedup_first (l : list string) : list string :=
  match l with
  | [] => []
  | x :: l' => x :: filter (fun y => y ≠ x) (dedup_first l')
  end.

(** The recipient list of a sequence of lines. *)
Definition parse_lines (lines : list string) : list string :=
  dedup_first
    (omap normalize (filter (fun l => is_entry_line l = true) lines)).

End Resolver.

(** ** The readiness rule *)

Module Readiness.

Definition status_is (d : list (string * json)) (name : string) : bool :=
  match dict_get d "status" with
  | Some (JStr s) => bool_decide (s = name)
  | _ => false
  end.

Definition ready_is_true (d : list (string * json)) : bool :=
  match dict_get d "ready" with
  | Some (JBool true) => true
  | _ => false
  end.

Definition has_identity_field (d : list (string * json)) : bool :=
  match dict_get d "me" with
  | Some _ => true
  | None => false
  end.

(** The rule as the specification words it: the status is CONNECTED, or
    [ready] is [true], or the status is WORKING and the identity field
    is present. *)
Definition as_stated (d : list (string * json)) : bool :=
  status_is d "CONNECTED" || ready_is_true d
  || (status_is d "WORKING" && has_identity_field d).

(** The rule on a status object whose status text is [s]: the text is
    compared in capitals, [ready] and [me] are taken by truth value. *)
Definition allows (d : list (string * json)) (s : string) : bool :=
  bool_decide (Py.upper s = "CONNECTED")
  || truthy (dict_get_or d "ready" (JBool false))
  || (bool_decide (Py.upper s = "WORKING")
      && truthy (default JNull (dict_get d "me"))).

(** The exception of a refused send, with the values its message shows. *)
Definition not_ready (session_name : string) (d : list (string * json))
    : waha_error :=
  SessionNotReady session_name
    (dict_get_or d "status" (JStr "unknown"))
    (dict_get_or d "ready" (JBool false))
    (dict_get_or d "connected" (JBool false))
    (negb (truthy (default JNull (dict_get d "me")))).

End Readiness.

(** ** Sequences of sends and what a trace shows *)

(** One [send_text_message] per address, in list order, each starting
    where the one before it stopped; the outcome of each. *)
Fixpoint send_each (env : Env) (text : string) (session : option string)
    (chat_ids : list string) (tr : trace)
    : list (string * result waha_error json) * trace :=
  match chat_ids with
  | [] => ([], tr)
  | chat_id :: rest =>
      let '(r, tr1) := send_text_message env chat_id text session tr in
      let '(rs, tr2) := send_each env text session rest tr1 in
      ((chat_id, r) :: rs, tr2)
  end.

Definition returned {E A} (r : result E A) : bool :=
  match r with Ok _ => true | Raise _ => false end.

(** The result entry of an address and the outcome of its send. *)
Definition bulk_item (o : string * result waha_error json) : BulkSendResultItem.t :=
  match o.2 with
  | Ok _ => BulkSendResultItem.mk o.1 "success" None
  | Raise e => BulkSendResultItem.mk o.1 "error" (Some (ExceptionText e))
  end.

(** Number of outcomes that returned, and that raised. *)
Definition count_returned {E A} (l : list (string * result E A)) : Z :=
  Z.of_nat (length (filter (fun o => returned o.2 = true) l)).
Definition count_raised {E A} (l : list (string * result E A)) : Z :=
  Z.of_nat (length (filter (fun o => returned o.2 = false) l)).

(** The session queries of a trace, the addresses it sent to, and the
    offsets it committed. *)
Definition queries_of (tr : trace) : list string :=
  omap (fun e => match e with HttpGetSession s => Some s | _ => None end) tr.
Definition sends_of (tr : trace) : list string :=
  omap (fun e => match e with HttpPostSendText c _ _ => Some c | _ => None end) tr.
Definition commits_of (tr : trace) : list (gmap TopicPartition Z) :=
  omap (fun e => match e with KafkaCommit o => Some o | _ => None end) tr.

(** ** Kinds of message bodies, and the end of normal processing *)

(** A body that decodes and validates to a payload with a summary that is
    not blank and a number that resolves to [chat_id]. *)
Definition well_formed (env : Env) (raw : string)
    (payload : NotificationPayload.t) (chat_id : string) : Prop :=
  (exists d, json_loads env raw = Some d /\ model_validate d = Some payload)
  /\ Py.strip (NotificationPayload.summary payload) <> ""
  /\ number_to_chat_id (NotificationPayload.number payload) = Some chat_id.

(** A well-formed body whose send returns, whenever it is made. *)
Definition delivers (env : Env) (raw : string) : Prop :=
  exists payload chat_id, well_formed env raw payload chat_id
    /\ forall tr, returned (send_text_message env chat_id
                    (NotificationPayload.summary payload) None tr).1 = true.

(** A well-formed body whose send raises, whenever it is made. *)
Definition send_fails (env : Env) (raw : string) : Prop :=
  exists payload chat_id, well_formed env raw payload chat_id
    /\ forall tr, returned (send_text_message env chat_id
                    (NotificationPayload.summary payload) None tr).1 = false.

(** A valid payload with a summary whose number does not resolve. *)
Definition invalid_number (env : Env) (raw : string) : Prop :=
  exists d payload, json_loads env raw = Some d
    /\ model_validate d = Some payload
    /\ Py.strip (NotificationPayload.summary payload) <> ""
    /\ number_to_chat_id (NotificationPayload.number payload) = None.

(** The variables at the end of the record loop, when the handler gets
    there: the consumer started, the fetch returned and no record raised. *)
Definition end_of_processing (env : Env) (max_messages : option Z)
    (poll_timeout_ms : Z) (tr : trace) : option Locals :=
  if kafka_start env tr then
    match kafka_getmany env (tr ++ [KafkaStart]) poll_timeout_ms with
    | Some batch =>
        match process_records env max_messages (sort_recs (flatten_batch batch))
                initial_locals (tr ++ [KafkaStart; KafkaGetmany poll_timeout_ms]) with
        | (Ok st, _) => Some st
        | (Raise _, _) => None
        end
    | None => None
    end
  else None.

(** [len(results)] and the sum of the three counters. *)
Definition examined (st : Locals) : Z := Z.of_nat (length (results st)).
Definition counted (st : Locals) : Z := processed st + failed st + skipped st.

(** What one turn of the loop does to the variables. *)
Inductive turn (tp : TopicPartition) (record : ConsumerRecord)
    (st : Locals) : Locals -> Prop :=
  | turn_success item :
      ConsumeResultItem.status item = "success" ->
      turn tp record st (succeed_record st tp record item)
  | turn_skipped item :
      ConsumeResultItem.status item = "skipped" ->
      turn tp record st (skip_record st tp record item)
  | turn_failed item :
      ConsumeResultItem.status item = "error" ->
      turn tp record st (fail_record st item).

(** ** More of what a trace and a batch show *)

(** A call to the gateway, as opposed to one to Kafka. *)
Definition is_http (e : event) : bool :=
  match e with
  | HttpGetSession _ | HttpPostSendText _ _ _ => true
  | _ => false
  end.

(** The partition [tp] of the batch holds a record at offset [k]. *)
Definition fetched (batch : Batch) (tp : TopicPartition) (k : Z) : Prop :=
  exists lst r, (tp, lst) ∈ batch /\ r ∈ lst /\ offset r = k.

(** The record at place [i] of the processing order [recs] is of partition
    [tp] at offset [k], and the result at the same place of [items] is not
    an error: the record was examined and its turn was a success or a
    skip. *)
Definition passed_at (recs : list (TopicPartition * ConsumerRecord))
    (items : list ConsumeResultItem.t) (tp : TopicPartition) (k : Z)
    (i : nat) : Prop :=
  exists r item, recs !! i = Some (tp, r) /\ offset r = k
    /\ items !! i = Some item /\ ConsumeResultItem.status item <> "error".

Definition passed (recs : list (TopicPartition * ConsumerRecord))
    (items : list ConsumeResultItem.t) (tp : TopicPartition) (k : Z) : Prop :=
  exists i, passed_at recs items tp k i.

(** [k] is the offset of the first record of [tp], in processing order,
    whose result is not an error. *)
Definition first_passed (recs : list (TopicPartition * ConsumerRecord))
    (items : list ConsumeResultItem.t) (tp : TopicPartition) (k : Z) : Prop :=
  exists i, passed_at recs items tp k i
    /\ forall j r item, (j < i)%nat -> recs !! j = Some (tp, r) ->
         items !! j = Some item -> ConsumeResultItem.status item = "error".

(** What the loop keeps of [last_committable] against the results so far:
    an entry [n] closes a run that starts at the first record of the
    partition that was not an error and holds only offsets of records that
    were not errors; a partition without entry has had errors only. *)
Definition frontier_inv (recs : list (TopicPartition * ConsumerRecord))
    (items : list ConsumeResultItem.t) (lc : gmap TopicPartition Z) : Prop :=
  (forall tp n, lc !! tp = Some n ->
     exists first, first_passed recs items tp first /\ first < n
       /\ forall k, first <= k < n -> passed recs items tp k)
  /\ (forall tp, lc !! tp = None ->
        forall j r item, recs !! j = Some (tp, r) -> items !! j = Some item ->
          ConsumeResultItem.status item = "error").

(** [isinstance(d, dict)] on a decoded value. *)
Definition is_object (d : json) : bool :=
  match d with JObj _ => true | _ => false end.

(** ** waha_client.py: _get_headers *)

(** [WAHAClient._get_headers], from the client's [api_key] and
    [auth_type]. *)
Definition _get_headers (api_key : option string) (auth_type : string)
    : gmap string string :=
  let headers : gmap string string := {["Content-Type" := "application/json"]} in
  match api_key with
  | Some key =>
      if negb (bool_decide (key = ""))
         && negb (bool_decide (auth_type = "none"))
         && negb (bool_decide (Py.strip key = ""))
      then
        if bool_decide (auth_type = "Bearer")
        then <["Authorization" := "Bearer " +:+ Py.strip key]> headers
        else if bool_decide (auth_type = "X-Api-Key")
        then <["X-Api-Key" := Py.strip key]> headers
        else headers
      else headers
  | None => headers
  end.

(** ** main.py: send_message *)

(** The [HTTPException] of [send_message], with the exception of the
    client it reports, if any. *)
Inductive message_exception :=
  | MessageHTTPException (status_code : Z) (cause : option waha_error).

(** [e.response.status_code] of an [httpx.HTTPStatusError]. *)
Definition response_status_code (e : waha_error) : Z :=
  match e with
  | SessionNotFound _ => 404
  | StatusQueryError code => code
  | SessionNotReady _ _ _ _ _ => 400
  | RequestAborted code _ _ => code
  | AuthenticationFailed _ => 401
  | ApiError code _ _ _ => code
  | StatusRaised code => code
  | _ => 0
  end.

(** [isinstance(e, httpx.RequestError)] *)
Definition is_request_error (e : waha_error) : bool :=
  match e with
  | StatusCheckFailed _ | CannotConnect | SendTimedOut _ _
  | TransportError _ => true
  | _ => false
  end.

(** [send_message]: the value returned is the [data] of the
    [MessageResponse], which must be a dict. *)
Definition send_message (env : Env) (chat_id text : string)
    (session : option string) (tr : trace)
    : result message_exception json * trace :=
  match send_text_message env chat_id text session tr with
  | (Ok response_data, tr') =>
      if is_object response_data then (Ok response_data, tr')
      else (Raise (MessageHTTPException 500 None), tr')
  | (Raise e, tr') =>
      if is_http_status_error e
      then (Raise (MessageHTTPException (response_status_code e) (Some e)), tr')
      else if is_request_error e
      then (Raise (MessageHTTPException 503 (Some e)), tr')
      else (Raise (MessageHTTPException 500 (Some e)), tr')
  end.

(** A gateway that always gives the same answer to the status query and
    the same answer to the send request; the body named "list" decodes to
    an empty JSON array. *)
Definition demo_gateway (get post : http_reply) : Env := {|
  default_session := "default";
  recipients_file := None;
  json_loads := fun raw =>
    if bool_decide (raw = "list") then Some (JArr []) else demo_loads raw;
  raise_for_status := fun code => negb ((200 <=? code) && (code <? 300));
  http_get_session := fun _ _ => get;
  http_post_sendtext := fun _ _ _ _ => post;
  kafka_start := fun _ => true;
  kafka_getmany := fun _ _ => Some [];
  kafka_commit := fun _ _ => true;
  kafka_stop := fun _ => true
|}.

(** A batch with a body that decodes to a JSON array between two good
    ones, in the world of [demo_gateway]. *)
Definition demo_batch_poison : Batch :=
  [(demo_tp, [Rec 20 (Some "msg:alice"); Rec 21 (Some "list");
              Rec 22 (Some "msg:bob")])].

Definition demo_poison_env : Env := {|
  default_session := "default";
  recipients_file := None;
  json_loads := fun raw =>
    if bool_decide (raw = "list") then Some (JArr []) else demo_loads raw;
  raise_for_status := fun code => negb ((200 <=? code) && (code <? 300));
  http_get_session := fun _ _ => Response 200 "status:working+me";
  http_post_sendtext := fun _ _ _ _ => Response 201 "sent";
  kafka_start := fun _ => true;
  kafka_getmany := fun _ _ => Some demo_batch_poison;
  kafka_commit := fun _ _ => true;
  kafka_stop := fun _ => true
|}.

(** ** config.py *)

Module Config.







(** The two settings that the auth file can set. *)
Record Settings := mkSettings {
  waha_api_key : option string;
  waha_auth_type : string
}.

(** [auth_map] *)
Definition auth_map : gmap string string :=
  {[ "x-api-key" := "X-Api-Key"; "bearer" := "Bearer"; "none" := "none" ]}.

(** [Settings._load_auth_from_file]: [environ] is [os.environ], [parsed]
    the result of [_parse_env_file] on the auth file. *)
Definition _load_auth_from_file (environ parsed : gmap string string)
    (self : Settings) : Settings :=
  if bool_decide (parsed = ∅) then self
  else
    let self1 :=
      match parsed !! "WAHA_API_KEY" with
      | Some k =>
          if negb (bool_decide (is_Some (environ !! "WAHA_API_KEY")))
             && negb (bool_decide (k = ""))
          then mkSettings (Some (Py.strip k)) (waha_auth_type self)
          else self
      | None => self
      end in
    match parsed !! "WAHA_AUTH_TYPE" with
    | Some t =>
        if negb (bool_decide (is_Some (environ !! "WAHA_AUTH_TYPE"))) then
          match auth_map !! Py.lower (Py.strip t) with
          | Some a => mkSettings (waha_api_key self1) a
          | None => self1
          end
        else self1
    | None => self1
    end.

(** [Settings.model_post_init] *)
Definition model_post_init (self : Settings) : Settings :=
  match waha_api_key self with
  | Some k =>
      if bool_decide (k = "") then self
      else if bool_decide (Py.strip k = "")
           then mkSettings None (waha_auth_type self)
           else mkSettings (Some (Py.strip k)) (waha_auth_type self)
  | None => self
  end.

End Config.

(** A batch whose first record cannot be reached and whose second can. *)
Definition demo_batch_failed_first : Batch :=
  [(demo_tp, [Rec 30 (Some "msg:unreachable"); Rec (30 + 1) (Some "msg:bob")])].

(** * Properties *)

(** ** Text *)

Lemma text_chars s : Py.text (Py.chars s) = s.
Proof. apply string_of_list_ascii_of_string. Qed.

Lemma chars_text l : Py.chars (Py.text l) = l.
Proof. apply list_ascii_of_string_of_list_ascii. Qed.

Lemma is_digit_decimal c : Py.is_digit c = Resolver.is_decimal_digit c.
Proof. by destruct c as [[] [] [] [] [] [] [] []]. Qed.

Lemma digits_of_strip s : Py.digits_of s = Resolver.strip_non_digits s.
Proof.
  unfold Py.digits_of, Py.chars, Py.text.
  induction s as [|c s IH]; [done|].
  cbn [list_ascii_of_string Resolver.strip_non_digits].
  rewrite filter_cons, <- is_digit_decimal.
  destruct (Py.is_digit c) eqn:Hc.
  - rewrite decide_True by done. cbn [string_of_list_ascii]. by rewrite IH.
  - rewrite decide_False by congruence. done.
Qed.

Lemma length_strip_non_digits s :
  String.length (Resolver.strip_non_digits s) = Resolver.digit_count s.
Proof.
  induction s as [|c s IH]; [done|]. cbn.
  destruct (Resolver.is_decimal_digit c); cbn; by rewrite IH.
Qed.

Lemma number_to_chat_id_normalize raw :
  number_to_chat_id raw = Resolver.normalize raw.
Proof.
  unfold number_to_chat_id, Resolver.normalize, Py.len.
  rewrite digits_of_strip, length_strip_non_digits.
  destruct (decide (Resolver.digit_count raw < 10)%nat) as [Hlt|Hge].
  - by rewrite (proj2 (Z.leb_gt _ _)) by lia.
  - by rewrite (proj2 (Z.leb_le _ _)) by lia.
Qed.

(** ** recipients.py *)

(** C6: [number_to_chat_id] strips every non-digit character, answers
    none when fewer than ten digits remain and the digits followed by
    [@c.us] otherwise; the two values given by the specification. *)
Theorem number_to_chat_id_spec :
  (forall raw : string,
     number_to_chat_id raw =
       if decide (Resolver.digit_count raw < 10)%nat then None
       else Some (Resolver.strip_non_digits raw +:+ "@c.us"))
  /\ number_to_chat_id "+91 9920906247" = Some "919920906247@c.us"
  /\ number_to_chat_id "12345" = None.
Proof.
  split; [|done]. intros raw. by rewrite number_to_chat_id_normalize.
Qed.

Lemma filter_not_elem_snoc (res l : list string) (c : string) :
  filter (fun x => x ∉ res ++ [c]) l
  = filter (fun x => x ∉ res) (filter (fun y => y ≠ c) l).
Proof.
  rewrite list_filter_filter. apply list_filter_iff. intros x.
  rewrite not_elem_of_app, list_elem_of_singleton. tauto.
Qed.

Lemma filter_not_elem_absorb (res l : list string) (c : string) :
  c ∈ res ->
  filter (fun x => x ∉ res) (filter (fun y => y ≠ c) l)
  = filter (fun x => x ∉ res) l.
Proof.
  intros Hc. rewrite list_filter_filter. apply list_filter_iff. intros x.
  split; [tauto|]. intros Hx. split; [done|]. by intros ->.
Qed.

Lemma space_not_digit c : Py.is_space c = true -> Py.is_digit c = false.
Proof. by destruct c as [[] [] [] [] [] [] [] []]. Qed.

Lemma filter_digit_lstrip l :
  filter (fun c => Py.is_digit c = true) (Py.lstrip l)
  = filter (fun c => Py.is_digit c = true) l.
Proof.
  induction l as [|c l IH]; [done|]. cbn [Py.lstrip].
  destruct (Py.is_space c) eqn:Hc; [|done].
  rewrite filter_cons, decide_False; [done|].
  rewrite (space_not_digit _ Hc). congruence.
Qed.

Lemma digits_of_strip_line s : Py.digits_of (Py.strip s) = Py.digits_of s.
Proof.
  unfold Py.digits_of, Py.strip. rewrite chars_text. f_equal.
  rewrite filter_reverse, filter_digit_lstrip, filter_reverse, reverse_involutive.
  apply filter_digit_lstrip.
Qed.

(** The line test and the digit test of the loop are those of the
    specification. *)
Lemma load_step_entry seen result line :
  load_step (seen, result) line =
    match (if Resolver.is_entry_line line then Resolver.normalize line else None) with
    | Some chat_id =>
        if bool_decide (chat_id ∈ seen) then (seen, result)
        else ({[chat_id]} ∪ seen, result ++ [chat_id])
    | None => (seen, result)
    end.
Proof.
  unfold load_step, Resolver.is_entry_line.
  destruct (bool_decide (Py.strip line = "")); [done|].
  destruct (Py.startswith_char "#" (Py.strip line)); [done|].
  cbn [orb negb andb].
  rewrite digits_of_strip_line, <- number_to_chat_id_normalize.
  unfold number_to_chat_id. rewrite Z.ltb_antisym.
  by destruct (10 <=? Py.len (Py.digits_of line)).
Qed.

Lemma load_loop_parse lines : forall (seen : gset string) (result : list string),
  (forall x, x ∈ seen <-> x ∈ result) ->
  (foldl load_step (seen, result) lines).2
  = result ++ filter (fun x => x ∉ result) (Resolver.parse_lines lines).
Proof.
  unfold Resolver.parse_lines.
  induction lines as [|line lines IH]; intros seen result Hseen.
  { cbn. by rewrite app_nil_r. }
  cbn [foldl]. rewrite load_step_entry, filter_cons.
  destruct (Resolver.is_entry_line line) eqn:Hline.
  2:{ rewrite decide_False by congruence. by apply IH. }
  rewrite decide_True by done.
  change (omap Resolver.normalize (line :: ?l))
    with (match Resolver.normalize line with
          | Some y => y :: omap Resolver.normalize l
          | None => omap Resolver.normalize l
          end).
  destruct (Resolver.normalize line) as [chat_id|] eqn:Hn.
  2:{ by apply IH. }
  cbn [Resolver.dedup_first]. rewrite filter_cons.
  destruct (bool_decide (chat_id ∈ seen)) eqn:Hin.
  - apply bool_decide_eq_true in Hin. apply Hseen in Hin.
    rewrite decide_False by tauto.
    rewrite filter_not_elem_absorb by done. by apply IH.
  - apply bool_decide_eq_false in Hin.
    rewrite decide_True by (by rewrite <- Hseen).
    rewrite (IH ({[chat_id]} ∪ seen) (result ++ [chat_id])).
    + by rewrite filter_not_elem_snoc, <- app_assoc.
    + intros x. rewrite elem_of_union, elem_of_singleton, elem_of_app,
        list_elem_of_singleton, Hseen. tauto.
Qed.

Lemma dedup_first_elem (l : list string) x : x ∈ Resolver.dedup_first l <-> x ∈ l.
Proof.
  induction l as [|y l IH]; [done|]. cbn.
  rewrite !elem_of_cons, list_elem_of_filter, IH.
  destruct (decide (x = y)); tauto.
Qed.

Lemma dedup_first_NoDup (l : list string) : NoDup (Resolver.dedup_first l).
Proof.
  induction l as [|y l IH]; cbn; constructor.
  - rewrite list_elem_of_filter. tauto.
  - by apply NoDup_filter.
Qed.

Lemma dedup_first_sublist (l : list string) : Resolver.dedup_first l `sublist_of` l.
Proof.
  induction l as [|y l IH]; cbn; [done|].
  apply sublist_skip. etrans; [apply sublist_filter|done].
Qed.

Lemma filter_not_elem_nil (l : list string) : filter (fun x => x ∉ []) l = l.
Proof.
  induction l as [|x l IH]; [done|].
  rewrite filter_cons, decide_True by apply not_elem_of_nil. by rewrite IH.
Qed.

Lemma omap_number_to_chat_id (l : list string) :
  omap number_to_chat_id l = omap Resolver.normalize l.
Proof.
  induction l as [|x l IH]; [done|].
  change (omap ?f (x :: l))
    with (match f x with Some y => y :: omap f l | None => omap f l end).
  by rewrite IH, number_to_chat_id_normalize.
Qed.

(** C7: [load_recipients] gives no recipient for a missing file, and for a
    file the recipient list of its lines: one entry per line that is
    neither blank nor a comment, each normalized, the failures dropped, and
    every address kept once at the place of its first occurrence; the lines
    of the specification, as a list and as the text of a file, give the one
    address. *)
Theorem load_recipients_spec :
  load_recipients None = []
  /\ (forall text : string,
        load_recipients (Some text) = load_lines (Py.splitlines text)
        /\ load_recipients (Some text)
           = Resolver.parse_lines (Py.splitlines text))
  /\ (forall lines : list string,
        load_lines lines = Resolver.parse_lines lines
        /\ NoDup (load_lines lines)
        /\ load_lines lines `sublist_of`
             omap number_to_chat_id
               (filter (fun l => Resolver.is_entry_line l = true) lines)
        /\ (forall a, a ∈ load_lines lines <->
              exists l, l ∈ lines /\ Resolver.is_entry_line l = true
                        /\ number_to_chat_id l = Some a))
  /\ load_lines ["919920906247"; "# comment"; "919920906247"; "12345"]
     = ["919920906247@c.us"]
  /\ Py.splitlines "919920906247
# comment
919920906247
12345" = ["919920906247"; "# comment"; "919920906247"; "12345"]
  /\ load_recipients (Some "919920906247
# comment
919920906247
12345") = ["919920906247@c.us"].
Proof.
  assert (forall lines, load_lines lines = Resolver.parse_lines lines) as Hparse.
  { intros lines. unfold load_lines.
    rewrite (load_loop_parse lines ∅ []) by set_solver.
    cbn [app]. apply filter_not_elem_nil. }
  split; [done|]. split.
  { intros text. cbn [load_recipients]. by rewrite Hparse. }
  split; [|done]. intros lines.
  assert (omap number_to_chat_id
            (filter (fun l => Resolver.is_entry_line l = true) lines)
          = omap Resolver.normalize
              (filter (fun l => Resolver.is_entry_line l = true) lines)) as Hn.
  { apply omap_number_to_chat_id. }
  rewrite Hparse, Hn. unfold Resolver.parse_lines.
  split; [done|]. split; [apply dedup_first_NoDup|].
  split; [apply dedup_first_sublist|].
  intros a. rewrite dedup_first_elem, list_elem_of_omap.
  split.
  - intros (l & [He Hl]%list_elem_of_filter & Hl').
    exists l. by rewrite number_to_chat_id_normalize.
  - intros (l & Hl & He & Hl'). exists l.
    by rewrite list_elem_of_filter, <- number_to_chat_id_normalize.
Qed.

(** ** waha_client.py *)

Lemma check_session_status_trace env session tr :
  (check_session_status env session tr).2
  = tr ++ [HttpGetSession (session_or_default env session)].
Proof.
  unfold check_session_status.
  destruct (http_get_session env tr _) as [| | |code body]; try done.
  destruct (raise_for_status env code); [by destruct (code =? 404)|].
  by destruct (json_loads env body).
Qed.

Lemma session_or_default_idem env session :
  session_or_default env (Some (session_or_default env session))
  = session_or_default env session.
Proof.
  unfold session_or_default. destruct session as [s|].
  - destruct (bool_decide (s = "")) eqn:Hs.
    + by destruct (bool_decide (default_session env = "")).
    + by rewrite Hs.
  - by destruct (bool_decide (default_session env = "")).
Qed.

Lemma post_sendtext_trace env chat_id text session_name tr :
  (post_sendtext env chat_id text session_name tr).2
  = tr ++ [HttpPostSendText chat_id text session_name].
Proof.
  unfold post_sendtext.
  destruct (http_post_sendtext env tr chat_id text session_name)
    as [| | |code body]; try done.
  repeat match goal with |- context [if ?b then _ else _] => destruct b end;
    try done.
  by destruct (json_loads env body).
Qed.

Lemma session_gate_allows session_name d s :
  dict_get_or d "status" (JStr "") = JStr s ->
  session_gate session_name (JObj d) =
    if Readiness.allows d s then Ok tt
    else Raise (Readiness.not_ready session_name d).
Proof.
  intros Hs. unfold session_gate, Readiness.allows, Readiness.not_ready.
  rewrite Hs.
  destruct (bool_decide (Py.upper s = "CONNECTED")); [done|].
  destruct (truthy (dict_get_or d "ready" (JBool false))); [done|].
  cbn [orb].
  by destruct (bool_decide (Py.upper s = "WORKING"));
    destruct (truthy (default JNull (dict_get d "me"))).
Qed.

(** The two shapes of the trace of one [send_text_message]. *)
Lemma send_text_message_trace env chat_id text session tr :
  let session_name := session_or_default env session in
  (send_text_message env chat_id text session tr).2 = tr ++ [HttpGetSession session_name]
  \/ (send_text_message env chat_id text session tr).2
     = tr ++ [HttpGetSession session_name; HttpPostSendText chat_id text session_name].
Proof.
  intros session_name. unfold send_text_message. fold session_name.
  pose proof (check_session_status_trace env (Some session_name) tr) as Htr.
  unfold session_name in Htr at 2. rewrite session_or_default_idem in Htr.
  fold session_name in Htr.
  destruct (check_session_status env (Some session_name) tr) as [[st|e] tr1];
    cbn in Htr; subst tr1; [|by left].
  destruct (session_gate session_name st); [|by left].
  right. rewrite post_sendtext_trace. by rewrite <- app_assoc.
Qed.

Lemma session_gate_Ok session_name st u :
  session_gate session_name st = Ok u ->
  exists d s, st = JObj d /\ dict_get_or d "status" (JStr "") = JStr s
              /\ Readiness.allows d s = true.
Proof.
  destruct st as [| | | |?|d]; try done. intros H.
  destruct (dict_get_or d "status" (JStr "")) as [| | |s| |] eqn:Hs;
    try (by unfold session_gate in H; rewrite Hs in H).
  exists d, s. split; [done|]. split; [done|].
  rewrite (session_gate_allows _ _ _ Hs) in H.
  by destruct (Readiness.allows d s).
Qed.

(** C4: [send_text_message] queries the session first and sends at most
    once after it.  The send request is issued exactly when the query
    returns a status object with a textual status that passes the rule
    (status CONNECTED in capitals, or a true [ready], or status WORKING in
    capitals with a non-empty [me]); a status object that does not pass is
    refused with [SessionNotReady], which carries the status, the ready and
    connected values and whether [me] is missing, and nothing is sent.
    Under status WORKING the rule is the truth of [ready] or of [me]. *)
Theorem send_text_message_readiness env chat_id text session tr :
  let session_name := session_or_default env session in
  let checked := check_session_status env (Some session_name) tr in
  let out := send_text_message env chat_id text session tr in
  (out.2 = tr ++ [HttpGetSession session_name]
   \/ out.2 = tr ++ [HttpGetSession session_name;
                     HttpPostSendText chat_id text session_name])
  /\ (out.2 = tr ++ [HttpGetSession session_name;
                     HttpPostSendText chat_id text session_name]
      <-> exists d s, checked.1 = Ok (JObj d)
                      /\ dict_get_or d "status" (JStr "") = JStr s
                      /\ Readiness.allows d s = true)
  /\ (forall d s, checked.1 = Ok (JObj d) ->
        dict_get_or d "status" (JStr "") = JStr s ->
        Readiness.allows d s = false ->
        out = (Raise (Readiness.not_ready session_name d),
               tr ++ [HttpGetSession session_name]))
  /\ (forall d, Readiness.allows d "WORKING"
                = truthy (dict_get_or d "ready" (JBool false))
                  || truthy (default JNull (dict_get d "me"))).
Proof.
  intros session_name checked out.
  split; [apply send_text_message_trace|].
  assert (checked.2 = tr ++ [HttpGetSession session_name]) as Htr.
  { unfold checked. rewrite check_session_status_trace.
    unfold session_name. by rewrite session_or_default_idem. }
  assert (forall a b : event, tr ++ [a] <> tr ++ [a; b]) as Hne.
  { intros a b H. by apply app_inv_head in H. }
  unfold out, send_text_message. fold session_name. fold checked.
  destruct checked as [[st|e] tr1]; cbn [fst snd] in *; subst tr1.
  2:{ split; [|split; [done|done]]. split; [by intros ?%Hne|].
      by intros (? & ? & ? & _). }
  split; [|split; [|done]].
  - split.
    + destruct (session_gate session_name st) as [u|e] eqn:Hg.
      * intros _. by apply session_gate_Ok in Hg as (d & s & -> & ? & ?); eauto.
      * by intros ?%Hne.
    + intros (d & s & [= ->] & Hs & Ha).
      rewrite (session_gate_allows _ _ _ Hs), Ha, post_sendtext_trace.
      by rewrite <- app_assoc.
  - intros d s [= ->] Hs Ha.
    rewrite (session_gate_allows _ _ _ Hs), Ha.
    unfold status_check_handler. done.
Qed.

(** C4, as worded, fails: a status in small letters does not read
    CONNECTED, [ready] is false and there is no identity field, yet the
    message is sent. *)
Lemma send_text_message_lowercase_status :
  demo_loads "status:connected-lowercase"
    = Some (JObj [("status", JStr "connected"); ("ready", JBool false)])
  /\ Readiness.as_stated [("status", JStr "connected"); ("ready", JBool false)]
     = false
  /\ send_text_message (demo_env "status:connected-lowercase" None [])
       "919920906247@c.us" "hello" None []
     = (Ok (JObj [("id", JStr "true_1")]),
        [HttpGetSession "default";
         HttpPostSendText "919920906247@c.us" "hello" "default"]).
Proof. by vm_compute. Qed.

(** The two gateway answers of the specification: WORKING with an identity
    is sent, WORKING alone is refused before any send. *)
Example send_text_message_working_me :
  send_text_message (demo_env "status:working+me" None [])
    "919920906247@c.us" "hello" None []
  = (Ok (JObj [("id", JStr "true_1")]),
     [HttpGetSession "default";
      HttpPostSendText "919920906247@c.us" "hello" "default"]).
Proof. by vm_compute. Qed.

Example send_text_message_working_alone :
  send_text_message (demo_env "status:working" None [])
    "919920906247@c.us" "hello" None []
  = (Raise (SessionNotReady "default" (JStr "WORKING") (JBool false)
              (JBool false) true),
     [HttpGetSession "default"]).
Proof. by vm_compute. Qed.

(** ** main.py: send_bulk *)

Lemma send_text_message_events env chat_id text session tr :
  exists evs, (send_text_message env chat_id text session tr).2 = tr ++ evs
    /\ queries_of evs = [session_or_default env session]
    /\ sends_of evs `sublist_of` [chat_id]
    /\ commits_of evs = [].
Proof.
  destruct (send_text_message_trace env chat_id text session tr) as [H|H];
    rewrite H; eexists; (split; [done|]); cbn; split_and!; try done.
  by apply sublist_nil_l.
Qed.

Lemma queries_of_app t1 t2 : queries_of (t1 ++ t2) = queries_of t1 ++ queries_of t2.
Proof. apply omap_app. Qed.
Lemma sends_of_app t1 t2 : sends_of (t1 ++ t2) = sends_of t1 ++ sends_of t2.
Proof. apply omap_app. Qed.
Lemma commits_of_app t1 t2 : commits_of (t1 ++ t2) = commits_of t1 ++ commits_of t2.
Proof. apply omap_app. Qed.

Lemma send_each_events env text session chat_ids : forall tr,
  exists evs, (send_each env text session chat_ids tr).2 = tr ++ evs
    /\ queries_of evs = replicate (length chat_ids) (session_or_default env session)
    /\ sends_of evs `sublist_of` chat_ids
    /\ commits_of evs = [].
Proof.
  induction chat_ids as [|c cs IH]; intros tr.
  { exists []. by rewrite app_nil_r. }
  cbn [send_each].
  destruct (send_text_message_events env c text session tr)
    as (e1 & H1 & Hq1 & Hs1 & Hc1).
  destruct (send_text_message env c text session tr) as [r tr1].
  cbn [snd] in H1. subst tr1.
  destruct (IH (tr ++ e1)) as (e2 & H2 & Hq2 & Hs2 & Hc2).
  destruct (send_each env text session cs (tr ++ e1)) as [rs tr2].
  cbn [snd] in *. subst tr2. exists (e1 ++ e2).
  rewrite queries_of_app, sends_of_app, commits_of_app, Hq1, Hq2, Hc1, Hc2.
  split_and!; [by rewrite app_assoc|done| |done].
  change (c :: cs) with ([c] ++ cs). by apply sublist_app.
Qed.

Lemma send_each_addresses env text session chat_ids : forall tr,
  (send_each env text session chat_ids tr).1.*1 = chat_ids.
Proof.
  induction chat_ids as [|c cs IH]; intros tr; [done|]. cbn [send_each].
  destruct (send_text_message env c text session tr) as [r tr1].
  specialize (IH tr1).
  destruct (send_each env text session cs tr1) as [rs tr2].
  cbn in *. by rewrite IH.
Qed.

Lemma count_returned_raised {E A} (l : list (string * result E A)) :
  count_returned l + count_raised l = Z.of_nat (length l).
Proof.
  unfold count_returned, count_raised.
  induction l as [|[c r] l IH]; [done|].
  rewrite !filter_cons. destruct r as [a|e]; cbn [snd returned].
  - rewrite decide_True, decide_False by done. cbn [length]. lia.
  - rewrite decide_False, decide_True by done. cbn [length]. lia.
Qed.

(** The loop of [send_bulk], from any value of its variables. *)
Lemma bulk_loop env text session chat_ids : forall results sent failed tr,
  foldl (bulk_step env text session) (results, sent, failed, tr) chat_ids
  = (results ++ (bulk_item <$> (send_each env text session chat_ids tr).1),
     sent + count_returned (send_each env text session chat_ids tr).1,
     failed + count_raised (send_each env text session chat_ids tr).1,
     (send_each env text session chat_ids tr).2).
Proof.
  induction chat_ids as [|c cs IH]; intros results sent failed tr.
  { cbn. by rewrite app_nil_r, !Z.add_0_r. }
  cbn [foldl send_each]. unfold bulk_step at 2.
  destruct (send_text_message env c text session tr) as [[a|e] tr1];
    rewrite IH; destruct (send_each env text session cs tr1) as [rs tr2];
    cbn [fst snd fmap list_fmap]; unfold count_returned, count_raised;
    rewrite !filter_cons; cbn [snd returned fst].
  - rewrite decide_True, decide_False by done. cbn [length].
    rewrite <- app_assoc, Nat2Z.inj_succ.
    repeat (first [done | lia | f_equal]).
  - rewrite decide_False, decide_True by done. cbn [length].
    rewrite <- app_assoc, Nat2Z.inj_succ.
    repeat (first [done | lia | f_equal]).
Qed.

Lemma bulk_item_chat_id (l : list (string * result waha_error json)) :
  BulkSendResultItem.chat_id <$> (bulk_item <$> l) = l.*1.
Proof.
  induction l as [|[c [a|e]] l IH]; [done|..]; cbn; by rewrite <- IH.
Qed.

(** C8: with a recipient list that is not empty, [send_bulk] makes one
    [send_text_message] per address in list order, whatever the earlier
    ones did; its result lists one entry per address in the same order,
    success where the send returned and error with the exception where it
    raised, and counts both; each send shows as one session query, the
    requests sent go to addresses of the list in list order, and no offset
    is committed.  With an empty list it raises the 400 of "no valid
    recipients" and calls nothing. *)
Theorem send_bulk_spec env text session tr :
  let chat_ids := load_recipients (recipients_file env) in
  let sends := send_each env text session chat_ids tr in
  match chat_ids with
  | [] =>
      send_bulk env text session tr
      = (Raise (HTTPException 400 NoValidRecipients), tr)
  | _ :: _ =>
      send_bulk env text session tr
      = (Ok (BulkSendResponse.mk "success" (count_returned sends.1)
               (count_raised sends.1) (bulk_item <$> sends.1)), sends.2)
      /\ BulkSendResultItem.chat_id <$> (bulk_item <$> sends.1) = chat_ids
      /\ count_returned sends.1 + count_raised sends.1
         = Z.of_nat (length chat_ids)
      /\ exists evs, sends.2 = tr ++ evs
           /\ queries_of evs
              = replicate (length chat_ids) (session_or_default env session)
           /\ sends_of evs `sublist_of` chat_ids
           /\ commits_of evs = []
  end.
Proof.
  intros chat_ids sends. unfold send_bulk. fold chat_ids.
  destruct chat_ids as [|c cs] eqn:Hids; [done|].
  rewrite bulk_loop. fold sends. cbn [app].
  rewrite !Z.add_0_l. split; [done|].
  rewrite bulk_item_chat_id. unfold sends.
  rewrite send_each_addresses. split; [done|].
  split.
  - rewrite count_returned_raised. f_equal.
    rewrite <- (send_each_addresses env text session (c :: cs) tr) at 2.
    by rewrite length_fmap.
  - apply send_each_events.
Qed.

(** A list of three addresses whose second send times out: the third is
    still sent, and the result counts two sent and one failed. *)
Example send_bulk_continues :
  send_bulk
    (demo_env "status:working+me"
       (Some "919920906247
# desk
910000000000
+91 98200 00001") [])
    "hello" None []
  = (Ok (BulkSendResponse.mk "success" 2 1
           [BulkSendResultItem.mk "919920906247@c.us" "success" None;
            BulkSendResultItem.mk "910000000000@c.us" "error"
              (Some (ExceptionText (SendTimedOut "default" "910000000000@c.us")));
            BulkSendResultItem.mk "919820000001@c.us" "success" None]),
     [HttpGetSession "default";
      HttpPostSendText "919920906247@c.us" "hello" "default";
      HttpGetSession "default";
      HttpPostSendText "910000000000@c.us" "hello" "default";
      HttpGetSession "default";
      HttpPostSendText "919820000001@c.us" "hello" "default"]).
Proof. by vm_compute. Qed.

(** ** main.py: consume_notifications *)

Lemma advance_rule tp off (lc : gmap TopicPartition Z) :
  advance tp off lc =
    if decide (lc !! tp = None \/ lc !! tp = Some off)
    then <[tp := off + 1]> lc else lc.
Proof.
  unfold advance. destruct (lc !! tp) as [cur|] eqn:Hcur.
  - destruct (Z.eqb_spec off cur) as [->|Hne].
    + rewrite decide_True; [done|by right].
    + rewrite decide_False; [done|]. intros [?|[=]]; [done|]. by subst.
  - rewrite decide_True; [done|by left].
Qed.

Lemma process_record_turn env tp record st tr st' tr' :
  process_record env tp record st tr = (Ok st', tr') ->
  turn tp record st st'
  /\ exists evs, tr' = tr ++ evs /\ commits_of evs = []
                 /\ (length (queries_of evs) <= 1)%nat.
Proof.
  assert (exists evs : trace, tr = tr ++ evs /\ commits_of evs = []
                 /\ length (queries_of evs) <= 1)%nat as Hnil.
  { exists []. rewrite app_nil_r. cbn. split_and!; [done..|lia]. }
  unfold process_record. destruct (value record) as [raw|].
  2:{ intros [= <- <-]. split; [by constructor|done]. }
  destruct (json_loads env raw) as [d|].
  2:{ intros [= <- <-]. split; [by constructor|done]. }
  destruct (model_validate d) as [payload|].
  2:{ destruct (validation_item d) as [item|e] eqn:Hitem; [|done].
      intros [= <- <-]. split; [|done]. constructor.
      destruct d; try done. cbn in Hitem.
      repeat case_match; by simplify_eq. }
  case_bool_decide.
  { intros [= <- <-]. split; [by constructor|done]. }
  destruct (number_to_chat_id _) as [chat_id|].
  2:{ intros [= <- <-]. split; [by constructor|done]. }
  destruct (send_text_message_events env chat_id
              (NotificationPayload.summary payload) None tr)
    as (evs & Htr & Hq & _ & Hc).
  destruct (send_text_message env chat_id _ None tr) as [[a|e] tr1];
    cbn [snd] in Htr; subst tr1; intros [= <- <-];
    (split; [by constructor|]); exists evs; rewrite Hq; cbn; split_and!; done || lia.
Qed.

(** C1: every turn of the loop that does not raise appends one result.
    After a success or a skip the entry of the record's partition is set
    to offset + 1 exactly when the partition has no entry yet or its entry
    equals the record's offset, and is left alone otherwise; after a
    failed send [last_committable] is not changed.  A null value is a
    skip. *)
Theorem process_record_frontier env tp record st tr st' tr' :
  process_record env tp record st tr = (Ok st', tr') ->
  exists item,
    results st' = results st ++ [item]
    /\ ConsumeResultItem.status item ∈ ["success"; "skipped"; "error"]
    /\ last_committable st' =
         (if bool_decide (ConsumeResultItem.status item = "error")
          then last_committable st
          else if decide (last_committable st !! tp = None
                          \/ last_committable st !! tp = Some (offset record))
               then <[tp := offset record + 1]> (last_committable st)
               else last_committable st)
    /\ (value record = None -> ConsumeResultItem.status item = "skipped").
Proof.
  intros H. pose proof H as [Hturn _]%process_record_turn.
  assert (value record = None ->
          exists item, st' = skip_record st tp record item
                       /\ ConsumeResultItem.status item = "skipped") as Hnull.
  { intros Hv. unfold process_record in H. rewrite Hv in H.
    injection H as <- <-. by eexists. }
  destruct Hturn as [item Hs|item Hs|item Hs]; exists item; cbn;
    rewrite Hs, <- ?advance_rule; split_and!; try done;
    try (by rewrite !elem_of_cons; auto).
  - intros (item' & Heq & Hs')%Hnull.
    apply (f_equal skipped) in Heq. cbn in Heq. lia.
  - intros (item' & Heq & Hs')%Hnull.
    apply (f_equal failed) in Heq. cbn in Heq. lia.
Qed.

Lemma process_record_frontier_witness :
  process_record (demo_env "status:working+me" None []) demo_tp (Rec 5 None)
    initial_locals []
  = (Ok (mkLocals [ConsumeResultItem.mk "" None "skipped"
                     (Some (Literal "null message value"))]
           0 0 1 {[demo_tp := 6]}), [])
  /\ exists item,
       [ConsumeResultItem.mk "" None "skipped" (Some (Literal "null message value"))]
       = [] ++ [item]
       /\ ConsumeResultItem.status item ∈ ["success"; "skipped"; "error"]
       /\ ({[demo_tp := 6]} : gmap TopicPartition Z) =
            (if bool_decide (ConsumeResultItem.status item = "error")
             then ∅
             else if decide ((∅ : gmap TopicPartition Z) !! demo_tp = None
                             \/ (∅ : gmap TopicPartition Z) !! demo_tp = Some 5)
                  then <[demo_tp := 5 + 1]> ∅
                  else ∅)
       /\ (@None string = None -> ConsumeResultItem.status item = "skipped").
Proof.
  split; [reflexivity|].
  exact (process_record_frontier (demo_env "status:working+me" None []) demo_tp
           (Rec 5 None) initial_locals []
           (mkLocals [ConsumeResultItem.mk "" None "skipped"
                        (Some (Literal "null message value"))]
              0 0 1 {[demo_tp := 6]}) [] eq_refl).
Defined.

(** C1, as worded, fails on a failed send: the first record of a
    partition, were the rule applied, would set the entry to 13; the loop
    leaves [last_committable] empty. *)
Lemma failed_send_keeps_frontier :
  process_record (demo_env "status:working+me" None []) demo_tp
    (Rec 12 (Some "msg:unreachable")) initial_locals []
  = (Ok (mkLocals [ConsumeResultItem.mk "910000000000" (Some "Acme") "error"
                     (Some (ExceptionText
                              (SendTimedOut "default" "910000000000@c.us")))]
           0 1 0 ∅),
     [HttpGetSession "default";
      HttpPostSendText "910000000000@c.us" "Rights issue" "default"])
  /\ (∅ : gmap TopicPartition Z) !! demo_tp = None
  /\ advance demo_tp 12 ∅ !! demo_tp = Some 13.
Proof. by vm_compute. Qed.

Lemma process_record_events env tp record st tr :
  exists evs, (process_record env tp record st tr).2 = tr ++ evs
              /\ commits_of evs = [].
Proof.
  destruct (process_record env tp record st tr) as [[st'|e] tr'] eqn:H.
  - apply process_record_turn in H as (_ & evs & -> & Hc & _). by exists evs.
  - exists []. rewrite app_nil_r. split; [|done].
    unfold process_record in H.
    repeat (case_match; simplify_eq; try done).
Qed.

Lemma process_records_events env max_messages recs : forall st tr,
  exists evs, (process_records env max_messages recs st tr).2 = tr ++ evs
              /\ commits_of evs = [].
Proof.
  induction recs as [|[tp record] recs IH]; intros st tr.
  { exists []. by rewrite app_nil_r. }
  cbn [process_records]. destruct (cap_reached max_messages st).
  { exists []. by rewrite app_nil_r. }
  destruct (process_record_events env tp record st tr) as (e1 & H1 & Hc1).
  destruct (process_record env tp record st tr) as [[st1|e] tr1];
    cbn [snd] in H1; subst tr1; [|by exists e1].
  destruct (IH st1 (tr ++ e1)) as (e2 & -> & Hc2).
  exists (e1 ++ e2). by rewrite app_assoc, commits_of_app, Hc1, Hc2.
Qed.

Lemma turn_counts tp record st st' :
  turn tp record st st' ->
  examined st' = examined st + 1
  /\ ((processed st', failed st', skipped st')
        = (processed st + 1, failed st, skipped st)
      \/ (processed st', failed st', skipped st')
        = (processed st, failed st + 1, skipped st)
      \/ (processed st', failed st', skipped st')
        = (processed st, failed st, skipped st + 1)).
Proof.
  unfold examined.
  intros [item _|item _|item _]; cbn; rewrite length_app; cbn;
    (split; [lia|auto]).
Qed.

Lemma turn_counted tp record st st' :
  turn tp record st st' ->
  examined st' = examined st + 1 /\ counted st' = counted st + 1.
Proof.
  intros [He H]%turn_counts. split; [done|]. unfold counted.
  destruct H as [[= -> -> ->]|[[= -> -> ->]|[= -> -> ->]]]; lia.
Qed.

(** The loop keeps the counters equal to the number of results, and
    examines records until the list or the cap is exhausted. *)
Lemma process_records_examined env max_messages recs : forall st tr st' tr',
  process_records env max_messages recs st tr = (Ok st', tr') ->
  counted st = examined st ->
  counted st' = examined st'
  /\ examined st' =
       match max_messages with
       | None => examined st + Z.of_nat (length recs)
       | Some m => Z.max (examined st)
                     (Z.min (examined st + Z.of_nat (length recs)) m)
       end.
Proof.
  induction recs as [|[tp record] recs IH]; intros st tr st' tr' H Hst.
  { injection H as <- <-. split; [done|]. cbn. destruct max_messages; lia. }
  cbn [process_records] in H. unfold cap_reached in H. fold (counted st) in H.
  rewrite Hst in H. cbn [length]. rewrite Nat2Z.inj_succ.
  destruct max_messages as [m|].
  - destruct (Z.leb_spec m (examined st)) as [Hcap|Hcap].
    { injection H as <- <-. split; [done|lia]. }
    destruct (process_record env tp record st tr) as [[st1|e] tr1] eqn:H1;
      [|done].
    apply process_record_turn in H1 as [[He Hc]%turn_counted _].
    apply IH in H as [H He']; [|lia]. split; [done|]. rewrite He'. lia.
  - destruct (process_record env tp record st tr) as [[st1|e] tr1] eqn:H1;
      [|done].
    apply process_record_turn in H1 as [[He Hc]%turn_counted _].
    apply IH in H as [H He']; [|lia]. split; [done|]. rewrite He'. lia.
Qed.

Lemma length_insert_by_key x l : length (insert_by_key x l) = S (length l).
Proof.
  induction l as [|y l IH]; [done|]. cbn.
  destruct (key_le x y); cbn; by rewrite ?IH.
Qed.

Lemma length_sort_recs l : length (sort_recs l) = length l.
Proof.
  induction l as [|x l IH]; [done|].
  change (sort_recs (x :: l)) with (insert_by_key x (sort_recs l)).
  by rewrite length_insert_by_key, IH.
Qed.

(** The handler returns only through the end of the loop. *)
Lemma consume_notifications_Ok env max_messages poll_timeout_ms tr resp tr' :
  consume_notifications env max_messages poll_timeout_ms tr = (Ok resp, tr') ->
  exists batch st tr2,
    kafka_getmany env (tr ++ [KafkaStart]) poll_timeout_ms = Some batch
    /\ process_records env max_messages (sort_recs (flatten_batch batch))
         initial_locals (tr ++ [KafkaStart; KafkaGetmany poll_timeout_ms])
       = (Ok st, tr2)
    /\ resp = ConsumeNotificationsResponse.mk "success" (processed st)
                (failed st) (skipped st) (results st).
Proof.
  unfold consume_notifications, consume_body.
  destruct (kafka_start env tr); [|done]. cbn [negb].
  destruct (kafka_getmany env (tr ++ [KafkaStart]) poll_timeout_ms) as [batch|].
  2:{ by case_match. }
  rewrite <- app_assoc. cbn [app].
  destruct (process_records _ _ _ _ _) as [[st|e] tr2] eqn:Hloop.
  2:{ by case_match. }
  intros H. exists batch, st, tr2. split; [done|]. split; [done|].
  repeat (case_match; simplify_eq; try done).
Qed.

(** C10: when the handler returns, the three counters add up to the number
    of results; every turn of the loop adds one result and one to exactly
    one counter; the number of results is the number of records fetched,
    or with a cap the smaller of that number and the cap (none when the cap
    is zero or negative), so it never exceeds a cap that is not negative. *)
Theorem consume_notifications_counts env max_messages poll_timeout_ms tr resp tr' :
  consume_notifications env max_messages poll_timeout_ms tr = (Ok resp, tr') ->
  let n := Z.of_nat (length (ConsumeNotificationsResponse.results resp)) in
  ConsumeNotificationsResponse.processed resp
  + ConsumeNotificationsResponse.failed resp
  + ConsumeNotificationsResponse.skipped resp = n
  /\ (forall tp record st tr1 st1 tr2,
        process_record env tp record st tr1 = (Ok st1, tr2) ->
        examined st1 = examined st + 1
        /\ ((processed st1, failed st1, skipped st1)
              = (processed st + 1, failed st, skipped st)
            \/ (processed st1, failed st1, skipped st1)
              = (processed st, failed st + 1, skipped st)
            \/ (processed st1, failed st1, skipped st1)
              = (processed st, failed st, skipped st + 1)))
  /\ (exists batch,
        kafka_getmany env (tr ++ [KafkaStart]) poll_timeout_ms = Some batch
        /\ n = match max_messages with
               | None => Z.of_nat (length (flatten_batch batch))
               | Some m => Z.min (Z.of_nat (length (flatten_batch batch)))
                             (Z.max m 0)
               end)
  /\ (forall m, max_messages = Some m ->
        (0 <= m -> n <= m)
        /\ (m <= 0 -> ConsumeNotificationsResponse.results resp = [])).
Proof.
  intros (batch & st & tr2 & Hfetch & Hloop & ->)%consume_notifications_Ok n.
  apply process_records_examined in Hloop as [Hc He]; [|done].
  unfold counted in Hc. unfold examined in *. cbn in He, n |- *.
  rewrite length_sort_recs in He. fold n in He, Hc.
  split; [done|]. split.
  { intros tp record st0 tr1 st1 tr3 [H _]%process_record_turn.
    by apply turn_counts in H. }
  split.
  { exists batch. split; [done|]. destruct max_messages; lia. }
  intros m ->. split; [lia|]. intros Hm.
  assert (n = 0) as Hn by lia. unfold n in Hn.
  destruct (results st); [done|]. cbn in Hn. lia.
Qed.

(** C5: the trace of one invocation holds at most one commit.  It holds
    one, of the whole of [last_committable], when the handler reaches the
    end of the record loop with a [last_committable] that is not empty; it
    holds none when that is empty, and none when the start, the fetch or a
    record raised before. *)
Theorem consume_notifications_commits env max_messages poll_timeout_ms tr :
  exists evs,
    (consume_notifications env max_messages poll_timeout_ms tr).2 = tr ++ evs
    /\ commits_of evs =
         match end_of_processing env max_messages poll_timeout_ms tr with
         | Some st =>
             if decide (last_committable st = ∅) then []
             else [last_committable st]
         | None => []
         end
    /\ (length (commits_of evs) <= 1)%nat.
Proof.
  assert (forall evs (l : list (gmap TopicPartition Z)),
            l = [] \/ (exists o, l = [o]) ->
            commits_of evs = l ->
            commits_of evs = l /\ (length (commits_of evs) <= 1)%nat) as Hlen.
  { intros evs l [->|[o ->]] ->; cbn; split; (done || lia). }
  unfold consume_notifications, end_of_processing, consume_body.
  destruct (kafka_start env tr); cbn [negb].
  2:{ exists [KafkaStart]. split; [done|]. apply Hlen; auto. }
  destruct (kafka_getmany env (tr ++ [KafkaStart]) poll_timeout_ms) as [batch|].
  2:{ exists [KafkaStart; KafkaGetmany poll_timeout_ms; KafkaStop].
      split; [|apply Hlen; auto].
      case_match; cbn; by rewrite <- !app_assoc. }
  rewrite <- !app_assoc. cbn [app].
  destruct (process_records_events env max_messages
              (sort_recs (flatten_batch batch)) initial_locals
              (tr ++ [KafkaStart; KafkaGetmany poll_timeout_ms]))
    as (evs & Htr & Hc).
  destruct (process_records _ _ _ _ _) as [[st|e] tr2];
    cbn [snd] in Htr; subst tr2.
  2:{ exists ([KafkaStart; KafkaGetmany poll_timeout_ms] ++ evs ++ [KafkaStop]).
      split; [case_match; cbn [snd]; by rewrite <- !app_assoc|].
      apply Hlen; [auto|]. by rewrite !commits_of_app, Hc. }
  case_bool_decide as Hempty.
  - rewrite decide_True by done.
    exists ([KafkaStart; KafkaGetmany poll_timeout_ms] ++ evs ++ [KafkaStop]).
    split; [case_match; cbn [snd]; by rewrite <- !app_assoc|].
    apply Hlen; [auto|]. by rewrite !commits_of_app, Hc.
  - rewrite decide_False by done.
    exists ([KafkaStart; KafkaGetmany poll_timeout_ms] ++ evs
            ++ [KafkaCommit (last_committable st); KafkaStop]).
    split.
    { repeat case_match; simplify_eq; cbn [snd]; by rewrite <- !app_assoc. }
    apply Hlen; [eauto|]. by rewrite !commits_of_app, Hc.
Qed.

(** C9: a fetch without records returns zero counts and no result, and
    the calls made are the start, the fetch and the stop: no commit. *)
Theorem consume_notifications_empty env max_messages poll_timeout_ms tr batch :
  kafka_start env tr = true ->
  kafka_getmany env (tr ++ [KafkaStart]) poll_timeout_ms = Some batch ->
  flatten_batch batch = [] ->
  kafka_stop env (tr ++ [KafkaStart; KafkaGetmany poll_timeout_ms]) = true ->
  consume_notifications env max_messages poll_timeout_ms tr
  = (Ok (ConsumeNotificationsResponse.mk "success" 0 0 0 []),
     tr ++ [KafkaStart; KafkaGetmany poll_timeout_ms; KafkaStop])
  /\ commits_of (consume_notifications env max_messages poll_timeout_ms tr).2
     = commits_of tr.
Proof.
  intros Hstart Hfetch Hempty Hstop.
  unfold consume_notifications, consume_body.
  rewrite Hstart, Hfetch, Hempty.
  cbn [negb sort_recs foldr process_records].
  rewrite bool_decide_eq_true_2 by done.
  rewrite <- !app_assoc. cbn [app]. rewrite Hstop. cbn [negb snd].
  split; [done|]. rewrite commits_of_app. cbn. by rewrite app_nil_r.
Qed.

Lemma string_compare_refl s : String.compare s s = Eq.
Proof.
  induction s as [|c s IH]; [done|]. cbn [String.compare].
  unfold Ascii.compare. by rewrite N.compare_refl.
Qed.

Lemma key_le_same_partition tp r1 r2 :
  key_le (tp, r1) (tp, r2) = (offset r1 <=? offset r2).
Proof. unfold key_le. cbn. by rewrite string_compare_refl, Z.compare_refl. Qed.

(** A list already in key order is left as it is. *)
Lemma sort_recs_sorted l :
  Sorted (fun a b => key_le a b = true) l -> sort_recs l = l.
Proof.
  induction 1 as [|x l Hl IH Hx]; [done|].
  change (sort_recs (x :: l)) with (insert_by_key x (sort_recs l)).
  rewrite IH. destruct Hx as [|y l Hxy]; [done|]. cbn. by rewrite Hxy.
Qed.

Lemma process_records_cons env max_messages tp record rest st tr :
  process_records env max_messages ((tp, record) :: rest) st tr =
    if cap_reached max_messages st then (Ok st, tr)
    else match process_record env tp record st tr with
         | (Ok st', tr') => process_records env max_messages rest st' tr'
         | (Raise e, tr') => (Raise e, tr')
         end.
Proof. done. Qed.

Lemma process_record_delivers env raw tp off st tr :
  delivers env raw ->
  exists item evs,
    process_record env tp (Rec off (Some raw)) st tr
    = (Ok (succeed_record st tp (Rec off (Some raw)) item), tr ++ evs)
    /\ ConsumeResultItem.status item = "success"
    /\ commits_of evs = [].
Proof.
  intros (payload & chat_id & ((d & Hd & Hv) & Hs & Hn) & Hsend).
  unfold process_record. cbn [value]. rewrite Hd, Hv.
  rewrite bool_decide_eq_false_2 by done. rewrite Hn.
  specialize (Hsend tr).
  destruct (send_text_message_events env chat_id
              (NotificationPayload.summary payload) None tr)
    as (evs & Htr & _ & _ & Hc).
  destruct (send_text_message env chat_id _ None tr) as [[a|e] tr1];
    [|done]. cbn [snd] in Htr. subst tr1. by eexists _, evs.
Qed.

Lemma process_record_send_fails env raw tp off st tr :
  send_fails env raw ->
  exists item evs,
    process_record env tp (Rec off (Some raw)) st tr
    = (Ok (fail_record st item), tr ++ evs)
    /\ ConsumeResultItem.status item = "error"
    /\ commits_of evs = [].
Proof.
  intros (payload & chat_id & ((d & Hd & Hv) & Hs & Hn) & Hsend).
  unfold process_record. cbn [value]. rewrite Hd, Hv.
  rewrite bool_decide_eq_false_2 by done. rewrite Hn.
  specialize (Hsend tr).
  destruct (send_text_message_events env chat_id
              (NotificationPayload.summary payload) None tr)
    as (evs & Htr & _ & _ & Hc).
  destruct (send_text_message env chat_id _ None tr) as [[a|e] tr1];
    [done|]. cbn [snd] in Htr. subst tr1. by eexists _, evs.
Qed.

Lemma process_record_invalid_number env raw tp off st tr :
  invalid_number env raw ->
  exists item,
    process_record env tp (Rec off (Some raw)) st tr
    = (Ok (skip_record st tp (Rec off (Some raw)) item), tr)
    /\ ConsumeResultItem.status item = "skipped"
    /\ ConsumeResultItem.error item = Some (Literal "invalid number").
Proof.
  intros (d & payload & Hd & Hv & Hs & Hn).
  unfold process_record. cbn [value]. rewrite Hd, Hv.
  rewrite bool_decide_eq_false_2 by done. rewrite Hn. by eexists.
Qed.

Lemma advance_fresh tp off : advance tp off ∅ = {[tp := off + 1]}.
Proof. unfold advance. by rewrite lookup_empty. Qed.

Lemma advance_next tp off :
  advance tp off {[tp := off]} = {[tp := off + 1]}.
Proof.
  unfold advance. rewrite lookup_singleton_eq, Z.eqb_refl.
  apply insert_singleton_eq.
Qed.

Lemma singleton_nonempty (tp : TopicPartition) (off : Z) :
  ({[tp := off]} : gmap TopicPartition Z) <> ∅.
Proof. apply insert_non_empty. Qed.

(** C2: records at offsets 5, 6 and 8 of one partition, a cap of 2, and
    sends that return for 5 and 6: the handler returns two successes and
    its one commit is of offset 7 for the partition; the record at 8 is
    not examined. *)
Theorem consume_notifications_cap_gap env tp raw5 raw6 value8 poll_timeout_ms tr :
  kafka_start env tr = true ->
  kafka_getmany env (tr ++ [KafkaStart]) poll_timeout_ms
  = Some [(tp, [Rec 5 (Some raw5); Rec 6 (Some raw6); Rec 8 value8])] ->
  delivers env raw5 ->
  delivers env raw6 ->
  (forall t o, kafka_commit env t o = true) ->
  (forall t, kafka_stop env t = true) ->
  exists item5 item6 evs,
    consume_notifications env (Some 2) poll_timeout_ms tr
    = (Ok (ConsumeNotificationsResponse.mk "success" 2 0 0 [item5; item6]),
       tr ++ evs)
    /\ ConsumeResultItem.status item5 = "success"
    /\ ConsumeResultItem.status item6 = "success"
    /\ commits_of evs = [{[tp := 7]}]
    /\ ({[tp := 7]} : gmap TopicPartition Z) !! tp <> Some 9.
Proof.
  intros Hstart Hfetch H5 H6 Hcommit Hstop.
  unfold consume_notifications, consume_body.
  rewrite Hstart, Hfetch. cbn [negb].
  rewrite sort_recs_sorted.
  2:{ cbn. repeat constructor; by rewrite key_le_same_partition. }
  change (flatten_batch _)
    with [(tp, Rec 5 (Some raw5)); (tp, Rec 6 (Some raw6)); (tp, Rec 8 value8)].
  set (tr0 := (tr ++ [KafkaStart]) ++ [KafkaGetmany poll_timeout_ms]).
  destruct (process_record_delivers env raw5 tp 5 initial_locals tr0 H5)
    as (item5 & e5 & H5' & Hs5 & Hc5).
  set (st1 := succeed_record initial_locals tp (Rec 5 (Some raw5)) item5) in *.
  destruct (process_record_delivers env raw6 tp 6 st1 (tr0 ++ e5) H6)
    as (item6 & e6 & H6' & Hs6 & Hc6).
  set (st2 := succeed_record st1 tp (Rec 6 (Some raw6)) item6) in *.
  rewrite process_records_cons.
  change (cap_reached (Some 2) initial_locals) with false. cbv iota.
  rewrite H5', process_records_cons.
  change (cap_reached (Some 2) st1) with false. cbv iota.
  rewrite H6', process_records_cons.
  change (cap_reached (Some 2) st2) with true. cbv iota.
  assert (last_committable st2 = {[tp := 7]}) as Hlc.
  { unfold st2, st1. cbn [succeed_record last_committable initial_locals offset].
    rewrite advance_fresh. change (5 + 1) with 6.
    rewrite advance_next. done. }
  rewrite Hlc.
  rewrite bool_decide_eq_false_2 by apply singleton_nonempty.
  rewrite Hcommit, Hstop. cbn [negb].
  exists item5, item6,
    ([KafkaStart; KafkaGetmany poll_timeout_ms] ++ e5 ++ e6
     ++ [KafkaCommit {[tp := 7]}; KafkaStop]).
  split; [unfold tr0; by rewrite <- !app_assoc|].
  split; [done|]. split; [done|]. split.
  - by rewrite !commits_of_app, Hc5, Hc6.
  - by rewrite lookup_singleton_eq.
Qed.

Lemma cap_not_reached max_messages st :
  match max_messages with Some m => counted st < m | None => True end ->
  cap_reached max_messages st = false.
Proof.
  unfold cap_reached, counted. destruct max_messages as [m|]; [|done].
  intros H. by apply Z.leb_gt.
Qed.

(** C3: three records of one partition at offsets off, off + 1, off + 2,
    in this order a body that is delivered, one with a number that does not
    resolve and one whose send raises: the handler returns processed 1,
    failed 1, skipped 1 with the three results success, skipped, error, and
    its one commit is of offset off + 2, the offset of the failed record:
    the frontier has passed the first two records and not the third. *)
Theorem consume_notifications_mixed env tp off raw1 raw2 raw3 max_messages
    poll_timeout_ms tr :
  kafka_start env tr = true ->
  kafka_getmany env (tr ++ [KafkaStart]) poll_timeout_ms
  = Some [(tp, [Rec off (Some raw1); Rec (off + 1) (Some raw2);
                Rec (off + 2) (Some raw3)])] ->
  delivers env raw1 ->
  invalid_number env raw2 ->
  send_fails env raw3 ->
  match max_messages with Some m => 3 <= m | None => True end ->
  (forall t o, kafka_commit env t o = true) ->
  (forall t, kafka_stop env t = true) ->
  exists item1 item2 item3 evs,
    consume_notifications env max_messages poll_timeout_ms tr
    = (Ok (ConsumeNotificationsResponse.mk "success" 1 1 1 [item1; item2; item3]),
       tr ++ evs)
    /\ ConsumeResultItem.status <$> [item1; item2; item3]
       = ["success"; "skipped"; "error"]
    /\ commits_of evs = [{[tp := off + 2]}].
Proof.
  intros Hstart Hfetch H1 H2 H3 Hcap Hcommit Hstop.
  unfold consume_notifications, consume_body.
  rewrite Hstart, Hfetch. cbn [negb].
  rewrite sort_recs_sorted.
  2:{ cbn. repeat constructor; rewrite key_le_same_partition; cbn; lia. }
  change (flatten_batch _)
    with [(tp, Rec off (Some raw1)); (tp, Rec (off + 1) (Some raw2));
          (tp, Rec (off + 2) (Some raw3))].
  set (tr0 := (tr ++ [KafkaStart]) ++ [KafkaGetmany poll_timeout_ms]).
  destruct (process_record_delivers env raw1 tp off initial_locals tr0 H1)
    as (item1 & e1 & H1' & Hs1 & Hc1).
  set (st1 := succeed_record initial_locals tp (Rec off (Some raw1)) item1) in *.
  destruct (process_record_invalid_number env raw2 tp (off + 1) st1
              (tr0 ++ e1) H2) as (item2 & H2' & Hs2 & _).
  set (st2 := skip_record st1 tp (Rec (off + 1) (Some raw2)) item2) in *.
  destruct (process_record_send_fails env raw3 tp (off + 2) st2
              (tr0 ++ e1) H3) as (item3 & e3 & H3' & Hs3 & Hc3).
  set (st3 := fail_record st2 item3) in *.
  assert (forall st, counted st < 3 -> cap_reached max_messages st = false)
    as Hgo.
  { intros st Hst. apply cap_not_reached. destruct max_messages; [lia|done]. }
  rewrite process_records_cons, (Hgo initial_locals) by done.
  rewrite H1', process_records_cons, (Hgo st1) by done.
  rewrite H2', process_records_cons, (Hgo st2) by done.
  rewrite H3'.
  cbn [process_records].
  assert (last_committable st3 = {[tp := off + 2]}) as Hlc.
  { unfold st3, st2, st1.
    cbn [fail_record skip_record succeed_record last_committable
         initial_locals offset].
    rewrite advance_fresh, advance_next. f_equal. lia. }
  rewrite Hlc.
  rewrite bool_decide_eq_false_2 by apply singleton_nonempty.
  rewrite Hcommit, Hstop. cbn [negb].
  exists item1, item2, item3,
    ([KafkaStart; KafkaGetmany poll_timeout_ms] ++ e1 ++ e3
     ++ [KafkaCommit {[tp := off + 2]}; KafkaStop]).
  split; [unfold tr0; by rewrite <- !app_assoc|].
  split; [cbn; by rewrite Hs1, Hs2, Hs3|].
  by rewrite !commits_of_app, Hc1, Hc3.
Qed.

(** ** The scenarios of the specification, run *)

Lemma demo_delivers file batch raw summary number chat_id :
  demo_loads raw = Some (demo_payload summary number) ->
  Py.strip summary <> "" ->
  number_to_chat_id number = Some chat_id ->
  bool_decide (chat_id = "910000000000@c.us") = false ->
  delivers (demo_env "status:working+me" file batch) raw.
Proof.
  intros Hraw Hs Hn Hc.
  exists (NotificationPayload.mk (Some "Acme") None summary number), chat_id.
  split; [split; [by exists (demo_payload summary number)|done]|].
  intros tr. unfold send_text_message, check_session_status, post_sendtext.
  cbn. by rewrite Hc.
Qed.

Lemma demo_send_fails file batch :
  send_fails (demo_env "status:working+me" file batch) "msg:unreachable".
Proof.
  exists (NotificationPayload.mk (Some "Acme") None "Rights issue" "910000000000"),
    "910000000000@c.us".
  split; [split; [by eexists|done]|]. by intros tr.
Qed.

Lemma demo_invalid_number file batch :
  invalid_number (demo_env "status:working+me" file batch) "msg:short-number".
Proof.
  exists (demo_payload "Dividend declared" "12345"),
    (NotificationPayload.mk (Some "Acme") None "Dividend declared" "12345").
  done.
Qed.

Lemma consume_notifications_cap_gap_witness :
  exists item5 item6 evs,
    consume_notifications (demo_env "status:working+me" None demo_batch_gap)
      (Some 2) 5000 []
    = (Ok (ConsumeNotificationsResponse.mk "success" 2 0 0 [item5; item6]),
       [] ++ evs)
    /\ ConsumeResultItem.status item5 = "success"
    /\ ConsumeResultItem.status item6 = "success"
    /\ commits_of evs = [{[demo_tp := 7]}]
    /\ ({[demo_tp := 7]} : gmap TopicPartition Z) !! demo_tp <> Some 9.
Proof.
  apply (consume_notifications_cap_gap
           (demo_env "status:working+me" None demo_batch_gap) demo_tp
           "msg:alice" "msg:bob" (Some "msg:bob") 5000 []).
  - reflexivity.
  - reflexivity.
  - apply (demo_delivers None demo_batch_gap "msg:alice" "Results are out"
             "+91 9920906247" "919920906247@c.us");
      [reflexivity|vm_compute; discriminate|reflexivity|reflexivity].
  - apply (demo_delivers None demo_batch_gap "msg:bob" "Board meeting"
             "919820000001" "919820000001@c.us");
      [reflexivity|vm_compute; discriminate|reflexivity|reflexivity].
  - reflexivity.
  - reflexivity.
Defined.

Lemma consume_notifications_mixed_witness :
  exists item1 item2 item3 evs,
    consume_notifications (demo_env "status:working+me" None demo_batch_mixed)
      None 5000 []
    = (Ok (ConsumeNotificationsResponse.mk "success" 1 1 1 [item1; item2; item3]),
       [] ++ evs)
    /\ ConsumeResultItem.status <$> [item1; item2; item3]
       = ["success"; "skipped"; "error"]
    /\ commits_of evs = [{[demo_tp := 10 + 2]}].
Proof.
  apply (consume_notifications_mixed
           (demo_env "status:working+me" None demo_batch_mixed) demo_tp 10
           "msg:alice" "msg:short-number" "msg:unreachable" None 5000 []).
  - reflexivity.
  - reflexivity.
  - apply (demo_delivers None demo_batch_mixed "msg:alice" "Results are out"
             "+91 9920906247" "919920906247@c.us");
      [reflexivity|vm_compute; discriminate|reflexivity|reflexivity].
  - apply demo_invalid_number.
  - apply demo_send_fails.
  - exact I.
  - reflexivity.
  - reflexivity.
Defined.

(** C3, as worded, fails: success at 10, invalid number at 11, failed send
    at 12 give the counts and the three results, and the offset committed
    is 12, not 13: the frontier has not passed the failed record. *)
Lemma mixed_batch_commits_failed_offset :
  consume_notifications (demo_env "status:working+me" None demo_batch_mixed)
    None 5000 []
  = (Ok (ConsumeNotificationsResponse.mk "success" 1 1 1
           [demo_item "+91 9920906247" "success" None;
            demo_item "12345" "skipped" (Some (Literal "invalid number"));
            demo_item "910000000000" "error"
              (Some (ExceptionText (SendTimedOut "default" "910000000000@c.us")))]),
     [KafkaStart; KafkaGetmany 5000;
      HttpGetSession "default";
      HttpPostSendText "919920906247@c.us" "Results are out" "default";
      HttpGetSession "default";
      HttpPostSendText "910000000000@c.us" "Rights issue" "default";
      KafkaCommit {[demo_tp := 12]}; KafkaStop])
  /\ ({[demo_tp := 12]} : gmap TopicPartition Z) !! demo_tp = Some 12
  /\ 12 < 12 + 1.
Proof. by vm_compute. Qed.

Lemma consume_notifications_empty_witness :
  consume_notifications (demo_env "status:working+me" None []) None 5000 []
  = (Ok (ConsumeNotificationsResponse.mk "success" 0 0 0 []),
     [] ++ [KafkaStart; KafkaGetmany 5000; KafkaStop])
  /\ commits_of
       (consume_notifications (demo_env "status:working+me" None []) None 5000 []).2
     = commits_of [].
Proof.
  apply (consume_notifications_empty (demo_env "status:working+me" None [])
           None 5000 [] []); reflexivity.
Defined.

Lemma consume_notifications_counts_witness :
  let resp :=
    ConsumeNotificationsResponse.mk "success" 2 0 0
      [demo_item "+91 9920906247" "success" None;
       demo_item "919820000001" "success" None] in
  ConsumeNotificationsResponse.processed resp
  + ConsumeNotificationsResponse.failed resp
  + ConsumeNotificationsResponse.skipped resp
  = Z.of_nat (length (ConsumeNotificationsResponse.results resp))
  /\ Z.of_nat (length (ConsumeNotificationsResponse.results resp)) <= 2.
Proof.
  intros resp.
  pose proof (consume_notifications_counts
                (demo_env "status:working+me" None demo_batch_gap) (Some 2) 5000 []
                resp
                [KafkaStart; KafkaGetmany 5000;
                 HttpGetSession "default";
                 HttpPostSendText "919920906247@c.us" "Results are out" "default";
                 HttpGetSession "default";
                 HttpPostSendText "919820000001@c.us" "Board meeting" "default";
                 KafkaCommit {[demo_tp := 7]}; KafkaStop]) as H.
  cbv zeta in H. specialize (H ltac:(vm_compute; reflexivity)).
  destruct H as (Hsum & _ & _ & Hcap). split; [exact Hsum|].
  destruct (Hcap 2 eq_refl) as [Hle _]. apply Hle. lia.
Defined.

(** * Further properties *)

(** ** The order of processing *)


Lemma insert_by_key_perm x l : insert_by_key x l ≡ₚ x :: l.
Proof.
  induction l as [|y l IH]; [done|]. cbn.
  destruct (key_le x y); [done|]. rewrite IH. apply Permutation_swap.
Qed.



Lemma sort_recs_perm recs : sort_recs recs ≡ₚ recs.
Proof.
  induction recs as [|x l IH]; [done|].
  change (sort_recs (x :: l)) with (insert_by_key x (sort_recs l)).
  by rewrite insert_by_key_perm, IH.
Qed.


(** ** The calls of one invocation *)

Lemma send_text_message_http env chat_id text session tr :
  exists evs, (send_text_message env chat_id text session tr).2 = tr ++ evs
    /\ Forall (fun e => is_http e = true) evs.
Proof.
  destruct (send_text_message_trace env chat_id text session tr) as [H|H];
    rewrite H; eexists; (split; [done|]); by repeat constructor.
Qed.

Lemma process_record_http env tp record st tr :
  exists evs, (process_record env tp record st tr).2 = tr ++ evs
    /\ Forall (fun e => is_http e = true) evs.
Proof.
  assert (exists evs : trace, tr = tr ++ evs
            /\ Forall (fun e => is_http e = true) evs) as Hnil.
  { exists []. by rewrite app_nil_r. }
  unfold process_record.
  destruct (value record) as [raw|]; [|done].
  destruct (json_loads env raw) as [d|]; [|done].
  destruct (model_validate d) as [payload|].
  2:{ by destruct (validation_item d). }
  case_bool_decide as Hblank; [done|].
  destruct (number_to_chat_id _) as [chat_id|]; [|done].
  destruct (send_text_message_http env chat_id
              (NotificationPayload.summary payload) None tr) as (evs & Hev & Hh).
  destruct (send_text_message env chat_id _ None tr) as [[a|e] tr1];
    cbn [snd] in *; subst tr1; by exists evs.
Qed.

Lemma process_records_http env max_messages recs : forall st tr,
  exists evs, (process_records env max_messages recs st tr).2 = tr ++ evs
    /\ Forall (fun e => is_http e = true) evs.
Proof.
  induction recs as [|[tp record] recs IH]; intros st tr.
  { exists []. by rewrite app_nil_r. }
  rewrite process_records_cons. destruct (cap_reached max_messages st).
  { exists []. by rewrite app_nil_r. }
  destruct (process_record_http env tp record st tr) as (e1 & H1 & Hh1).
  destruct (process_record env tp record st tr) as [[st1|e] tr1];
    cbn [snd] in H1; subst tr1; [|by exists e1].
  destruct (IH st1 (tr ++ e1)) as (e2 & -> & Hh2).
  exists (e1 ++ e2). rewrite app_assoc. split; [done|]. by apply Forall_app.
Qed.

(** X2: when the consumer cannot be started the handler answers 503 after
    that one call, without a stop.  Once it has started, the calls are the
    start, the fetch, then calls to the gateway only, then at most one
    commit, and always the stop as the last call, whatever was raised in
    between. *)
Theorem consume_notifications_calls env max_messages poll_timeout_ms tr :
  let out := consume_notifications env max_messages poll_timeout_ms tr in
  if kafka_start env tr then
    exists http commit,
      out.2 = tr ++ [KafkaStart] ++ [KafkaGetmany poll_timeout_ms]
                 ++ http ++ commit ++ [KafkaStop]
      /\ Forall (fun e => is_http e = true) http
      /\ (commit = [] \/ exists offsets, commit = [KafkaCommit offsets])
  else
    out = (Raise (HTTPException 503 CouldNotConnectKafka), tr ++ [KafkaStart]).
Proof.
  cbv zeta. unfold consume_notifications, consume_body.
  destruct (kafka_start env tr); [|done]. cbn [negb].
  destruct (kafka_getmany env (tr ++ [KafkaStart]) poll_timeout_ms) as [batch|].
  2:{ exists [], []. split; [|auto].
      case_match; cbn; by rewrite <- !app_assoc. }
  destruct (process_records_http env max_messages
              (sort_recs (flatten_batch batch)) initial_locals
              ((tr ++ [KafkaStart]) ++ [KafkaGetmany poll_timeout_ms]))
    as (http & Htr & Hh).
  destruct (process_records _ _ _ _ _) as [[st|e] tr2];
    cbn [snd] in Htr; subst tr2.
  2:{ exists http, []. split; [|auto].
      case_match; cbn [snd]; by rewrite <- !app_assoc. }
  case_bool_decide.
  - exists http, []. split; [|auto].
    case_match; cbn [snd]; by rewrite <- !app_assoc.
  - exists http, [KafkaCommit (last_committable st)]. split; [|eauto].
    repeat case_match; simplify_eq; cbn [snd]; by rewrite <- !app_assoc.
Qed.

(** ** The commit frontier over a batch *)

Lemma flatten_batch_elem batch tp r :
  (tp, r) ∈ flatten_batch batch <-> exists lst, (tp, lst) ∈ batch /\ r ∈ lst.
Proof.
  unfold flatten_batch. rewrite list_elem_of_bind. split.
  - intros ([tp' lst] & (r' & [= -> ->] & Hr)%list_elem_of_fmap & Hb). eauto.
  - intros (lst & Hb & Hr). exists (tp, lst). split; [|done].
    apply list_elem_of_fmap. eauto.
Qed.

(** The handler commits only the [last_committable] of the end of the
    record loop. *)
Lemma consume_notifications_commit_inv env max_messages poll_timeout_ms tr evs offsets :
  (consume_notifications env max_messages poll_timeout_ms tr).2 = tr ++ evs ->
  offsets ∈ commits_of evs ->
  exists batch st tr2,
    kafka_getmany env (tr ++ [KafkaStart]) poll_timeout_ms = Some batch
    /\ process_records env max_messages (sort_recs (flatten_batch batch))
         initial_locals (tr ++ [KafkaStart; KafkaGetmany poll_timeout_ms])
       = (Ok st, tr2)
    /\ offsets = last_committable st.
Proof.
  unfold consume_notifications, consume_body.
  destruct (kafka_start env tr); cbn [negb].
  2:{ intros <-%app_inv_head Hin. exfalso. revert Hin. apply not_elem_of_nil. }
  destruct (kafka_getmany env (tr ++ [KafkaStart]) poll_timeout_ms) as [batch|].
  2:{ intros H.
      assert (evs = [KafkaStart; KafkaGetmany poll_timeout_ms; KafkaStop]) as ->.
      { apply (app_inv_head tr). rewrite <- H.
        case_match; cbn; by rewrite <- !app_assoc. }
      intros Hin. exfalso. revert Hin. apply not_elem_of_nil. }
  rewrite <- !app_assoc. cbn [app].
  destruct (process_records_events env max_messages
              (sort_recs (flatten_batch batch)) initial_locals
              (tr ++ [KafkaStart; KafkaGetmany poll_timeout_ms]))
    as (e1 & Htr & Hc).
  destruct (process_records _ _ _ _ _) as [[st|e] tr2] eqn:Hloop;
    cbn [snd] in Htr; subst tr2.
  2:{ intros H.
      assert (evs = [KafkaStart; KafkaGetmany poll_timeout_ms] ++ e1 ++ [KafkaStop])
        as ->.
      { apply (app_inv_head tr). rewrite <- H.
        case_match; cbn [snd]; by rewrite <- !app_assoc. }
      rewrite !commits_of_app, Hc.
      intros Hin. exfalso. revert Hin. apply not_elem_of_nil. }
  case_bool_decide as Hempty.
  - intros H.
    assert (evs = [KafkaStart; KafkaGetmany poll_timeout_ms] ++ e1 ++ [KafkaStop])
      as ->.
    { apply (app_inv_head tr). rewrite <- H.
      case_match; cbn [snd]; by rewrite <- !app_assoc. }
    rewrite !commits_of_app, Hc.
    intros Hin. exfalso. revert Hin. apply not_elem_of_nil.
  - intros H.
    assert (evs = [KafkaStart; KafkaGetmany poll_timeout_ms] ++ e1
                  ++ [KafkaCommit (last_committable st); KafkaStop]) as ->.
    { apply (app_inv_head tr). rewrite <- H.
      repeat case_match; simplify_eq; cbn [snd]; by rewrite <- !app_assoc. }
    rewrite !commits_of_app, Hc.
    change (commits_of [KafkaStart; KafkaGetmany poll_timeout_ms] ++ []
            ++ commits_of [KafkaCommit (last_committable st); KafkaStop])
      with [last_committable st].
    intros ->%list_elem_of_singleton.
    by exists batch, st, ((tr ++ [KafkaStart; KafkaGetmany poll_timeout_ms]) ++ e1).
Qed.

Lemma passed_at_snoc recs items x tp k i :
  passed_at recs items tp k i -> passed_at recs (items ++ [x]) tp k i.
Proof.
  intros (r & item & Hr & Hk & Hi & Hs). exists r, item.
  split_and!; try done. by apply lookup_app_l_Some.
Qed.

Lemma passed_snoc recs items x tp k :
  passed recs items tp k -> passed recs (items ++ [x]) tp k.
Proof. intros [i Hi]. exists i. by apply passed_at_snoc. Qed.

Lemma first_passed_snoc recs items x tp k :
  first_passed recs items tp k -> first_passed recs (items ++ [x]) tp k.
Proof.
  intros (i & Hi & Hmin). exists i. split; [by apply passed_at_snoc|].
  intros j r item Hj Hr Hitem. apply (Hmin j r item Hj Hr).
  destruct Hi as (_ & item0 & _ & _ & Hi0%lookup_lt_Some & _).
  rewrite lookup_app_l in Hitem by lia. done.
Qed.

(** A turn that is not an error, at the place that follows the results. *)
Lemma passed_at_new recs items item tp record :
  recs !! length items = Some (tp, record) ->
  ConsumeResultItem.status item <> "error" ->
  passed_at recs (items ++ [item]) tp (offset record) (length items).
Proof.
  intros Hr Hs. exists record, item. split_and!; try done.
  by rewrite lookup_app_r, Nat.sub_diag by lia.
Qed.

Lemma frontier_inv_keep recs items item tp0 record lc :
  recs !! length items = Some (tp0, record) ->
  (ConsumeResultItem.status item = "error" \/ is_Some (lc !! tp0)) ->
  frontier_inv recs items lc ->
  frontier_inv recs (items ++ [item]) lc.
Proof.
  intros Hrec Hcase [Hrun Hnone]. split.
  - intros tp n Hn. destruct (Hrun tp n Hn) as (first & Hf & Hlt & Hk).
    exists first. split; [by apply first_passed_snoc|]. split; [done|].
    intros k Hkr. by apply passed_snoc, Hk.
  - intros tp Htp j r it Hr Hit.
    apply lookup_snoc_Some in Hit as [[_ Hit]|[-> ->]]; [by eapply Hnone|].
    rewrite Hrec in Hr. injection Hr as <- <-.
    destruct Hcase as [?|[? ?]]; [done|congruence].
Qed.

Lemma frontier_inv_advance recs items item tp0 record lc :
  recs !! length items = Some (tp0, record) ->
  ConsumeResultItem.status item <> "error" ->
  frontier_inv recs items lc ->
  frontier_inv recs (items ++ [item]) (advance tp0 (offset record) lc).
Proof.
  intros Hrec Hs Hinv. rewrite advance_rule.
  case_decide as Hcase.
  2:{ eapply frontier_inv_keep; [done| |done]. right.
      destruct (lc !! tp0) eqn:Hl; [by eexists|]. by destruct Hcase; left. }
  destruct Hinv as [Hrun Hnone].
  pose proof (passed_at_new recs items item tp0 record Hrec Hs) as Hnew.
  split.
  - intros tp n. rewrite lookup_insert. case_decide as Htp.
    + subst tp. intros [= <-]. destruct Hcase as [Hl|Hl].
      * exists (offset record). split.
        { exists (length items). split; [done|].
          intros j r it Hj Hr Hit. rewrite lookup_app_l in Hit by lia.
          by eapply Hnone. }
        split; [lia|]. intros k Hk. replace k with (offset record) by lia.
        by exists (length items).
      * destruct (Hrun _ _ Hl) as (first & Hf & Hlt & Hk).
        exists first. split; [by apply first_passed_snoc|]. split; [lia|].
        intros k Hkr. destruct (decide (k = offset record)) as [->|Hne].
        { by exists (length items). }
        apply passed_snoc, Hk. lia.
    + intros Hn. destruct (Hrun tp n Hn) as (first & Hf & Hlt & Hk).
      exists first. split; [by apply first_passed_snoc|]. split; [done|].
      intros k Hkr. by apply passed_snoc, Hk.
  - intros tp. rewrite lookup_insert. case_decide as Htp; [done|].
    intros Hl j r it Hr Hit.
    apply lookup_snoc_Some in Hit as [[_ Hit]|[-> ->]]; [by eapply Hnone|].
    rewrite Hrec in Hr. by injection Hr as <- <-.
Qed.

Lemma turn_frontier_inv recs tp0 record st st' :
  turn tp0 record st st' ->
  recs !! length (results st) = Some (tp0, record) ->
  frontier_inv recs (results st) (last_committable st) ->
  frontier_inv recs (results st') (last_committable st')
  /\ length (results st') = S (length (results st)).
Proof.
  intros [item Hs|item Hs|item Hs] Hrec Hinv; cbn;
    (split; [|rewrite length_app; cbn; lia]).
  - apply frontier_inv_advance; [done| |done]. by rewrite Hs.
  - apply frontier_inv_advance; [done| |done]. by rewrite Hs.
  - eapply frontier_inv_keep; [done| |done]. by left.
Qed.

Lemma process_records_frontier_inv env max_messages recs :
  forall examined st tr st' tr',
  process_records env max_messages recs st tr = (Ok st', tr') ->
  length (results st) = length examined ->
  frontier_inv (examined ++ recs) (results st) (last_committable st) ->
  frontier_inv (examined ++ recs) (results st') (last_committable st').
Proof.
  induction recs as [|[tp0 record] recs IH];
    intros examined st tr st' tr' H Hlen Hinv.
  { by injection H as <- <-. }
  rewrite process_records_cons in H.
  destruct (cap_reached max_messages st); [by injection H as <- <-|].
  destruct (process_record env tp0 record st tr) as [[st1|e] tr1] eqn:H1;
    [|done].
  apply process_record_turn in H1 as [Hturn _].
  destruct (turn_frontier_inv (examined ++ (tp0, record) :: recs) tp0 record
              st st1 Hturn) as [Hinv1 Hlen1]; [|done|].
  { rewrite Hlen. by rewrite lookup_app_r, Nat.sub_diag by lia. }
  specialize (IH (examined ++ [(tp0, record)]) st1 tr1 st' tr' H).
  rewrite <- app_assoc in IH. apply IH; [|done].
  rewrite Hlen1, Hlen, length_app. cbn. lia.
Qed.

(** X3: an offset [n] committed for a partition closes a run without gap
    of records that were not errors.  The run starts at the offset of the
    first record of the partition, in processing order, whose result is
    not an error, and every offset from there up to [n - 1] is that of a
    record fetched for the partition in this batch and examined with a
    result that is not an error. *)
Theorem consume_notifications_contiguous env max_messages poll_timeout_ms tr
    batch evs offsets tp n :
  kafka_getmany env (tr ++ [KafkaStart]) poll_timeout_ms = Some batch ->
  (consume_notifications env max_messages poll_timeout_ms tr).2 = tr ++ evs ->
  offsets ∈ commits_of evs ->
  offsets !! tp = Some n ->
  let recs := sort_recs (flatten_batch batch) in
  exists st tr2 first,
    process_records env max_messages recs initial_locals
      (tr ++ [KafkaStart; KafkaGetmany poll_timeout_ms]) = (Ok st, tr2)
    /\ offsets = last_committable st
    /\ first_passed recs (results st) tp first
    /\ first < n
    /\ forall k, first <= k < n ->
         passed recs (results st) tp k /\ fetched batch tp k.
Proof.
  intros Hfetch Hout Hin Hn recs.
  destruct (consume_notifications_commit_inv _ _ _ _ _ _ Hout Hin)
    as (batch' & st & tr2 & Hfetch' & Hloop & ->).
  rewrite Hfetch in Hfetch'. injection Hfetch' as <-. fold recs in Hloop.
  destruct (process_records_frontier_inv env max_messages recs [] initial_locals
              _ st tr2 Hloop eq_refl) as [Hrun _].
  { split; cbn [initial_locals last_committable results].
    - intros tp' n'. by rewrite lookup_empty.
    - intros tp' _ j r item _ Hitem. by rewrite lookup_nil in Hitem. }
  destruct (Hrun tp n Hn) as (first & Hfirst & Hlt & Hk).
  exists st, tr2, first. split_and!; try done.
  intros k Hkr. split; [by apply Hk|].
  destruct (Hk k Hkr) as (i & r & item & Hr & Hoff & _).
  apply list_elem_of_lookup_2 in Hr. unfold recs in Hr.
  rewrite sort_recs_perm in Hr.
  apply flatten_batch_elem in Hr as (lst & Hb & Hr). by exists lst, r.
Qed.

(** X4: during the record loop the entry of a partition is never removed
    and never decreases. *)
Theorem process_records_monotone env max_messages recs : forall st tr st' tr',
  process_records env max_messages recs st tr = (Ok st', tr') ->
  forall tp o, last_committable st !! tp = Some o ->
    exists o', last_committable st' !! tp = Some o' /\ o <= o'.
Proof.
  induction recs as [|[tp0 record] recs IH]; intros st tr st' tr' H tp o Ho.
  { injection H as <- <-. exists o. split; [done|lia]. }
  rewrite process_records_cons in H.
  destruct (cap_reached max_messages st).
  { injection H as <- <-. exists o. split; [done|lia]. }
  destruct (process_record env tp0 record st tr) as [[st1|e] tr1] eqn:H1;
    [|done].
  apply process_record_turn in H1 as [Hturn _].
  assert (exists o1, last_committable st1 !! tp = Some o1 /\ o <= o1)
    as (o1 & Ho1 & Hle).
  { assert (exists o1, advance tp0 (offset record) (last_committable st) !! tp
                       = Some o1 /\ o <= o1) as Hadv.
    { rewrite advance_rule. case_decide as Hcase; [|exists o; split; [done|lia]].
      rewrite lookup_insert. case_decide as Htp; [|exists o; split; [done|lia]].
      subst tp0. eexists. split; [done|].
      destruct Hcase as [Hnone|Hsome]; [congruence|].
      rewrite Ho in Hsome. injection Hsome as ->. lia. }
    destruct Hturn as [item _|item _|item _]; cbn; [done|done|].
    exists o. split; [done|lia]. }
  destruct (IH _ _ _ _ H tp o1 Ho1) as (o' & Ho' & Hle').
  exists o'. split; [done|lia].
Qed.

(** ** waha_client.py: what each outcome tells *)

(** X5: [check_session_status] makes exactly one request, for the session
    given or else the default one.  It returns the decoded body exactly
    when the response does not raise for its status and decodes; it raises
    the "not found" error exactly on a 404 that raises for status. *)
Theorem check_session_status_outcome env session tr :
  let session_name := session_or_default env session in
  let reply := http_get_session env tr session_name in
  let out := check_session_status env session tr in
  out.2 = tr ++ [HttpGetSession session_name]
  /\ (forall j, out.1 = Ok j <->
        exists code body, reply = Response code body
          /\ raise_for_status env code = false
          /\ json_loads env body = Some j)
  /\ (forall s, out.1 = Raise (SessionNotFound s) <->
        s = session_name
        /\ exists body, reply = Response 404 body
                        /\ raise_for_status env 404 = true).
Proof.
  intros session_name reply out.
  split; [apply check_session_status_trace|].
  unfold out, check_session_status. fold session_name. fold reply.
  destruct reply as [| | |code body]; cbn [fst].
  1-3: split; [intros j|intros s]; (split; [done|]);
       [by intros (? & ? & ? & _)|by intros (_ & ? & ? & _)].
  destruct (raise_for_status env code) eqn:Hr.
  - destruct (Z.eqb_spec code 404) as [->|Hne]; cbn [fst].
    + split; [intros j|intros s].
      * split; [done|]. intros (c & b & [= <- <-] & Hr' & _). congruence.
      * split; [intros [= <-]; eauto|]. by intros (-> & _).
    + split; [intros j|intros s].
      * split; [done|]. intros (c & b & [= <- <-] & Hr' & _). congruence.
      * split; [done|]. intros (_ & b & [= ? ?] & _). done.
  - destruct (json_loads env body) as [j0|] eqn:Hj; cbn [fst].
    + split; [intros j|intros s].
      * split; [intros [= <-]; eauto|].
        intros (c & b & [= <- <-] & _ & Hj'). congruence.
      * split; [done|]. intros (_ & b & [= -> <-] & Hr'). congruence.
    + split; [intros j|intros s].
      * split; [done|]. intros (c & b & [= <- <-] & _ & Hj'). congruence.
      * split; [done|]. intros (_ & b & [= -> <-] & Hr'). congruence.
Qed.

Lemma post_sendtext_Ok env chat_id text session_name tr a :
  (post_sendtext env chat_id text session_name tr).1 = Ok a ->
  exists code body,
    http_post_sendtext env tr chat_id text session_name = Response code body
    /\ code <> 0 /\ code < 400
    /\ raise_for_status env code = false
    /\ json_loads env body = Some a.
Proof.
  unfold post_sendtext.
  destruct (http_post_sendtext env tr chat_id text session_name)
    as [| | |code body]; try done.
  destruct (Z.eqb_spec code 0) as [|Hne0]; [done|]. cbn [orb].
  destruct (_ && _); [done|].
  destruct (code =? 401); [done|].
  destruct (Z.leb_spec 400 code) as [|Hlt]; [done|].
  destruct (raise_for_status env code) eqn:Hr; [done|].
  destruct (json_loads env body) as [j|] eqn:Hj; [|done].
  intros [= <-]. by exists code, body.
Qed.

Lemma send_text_message_Ok env chat_id text session tr a :
  (send_text_message env chat_id text session tr).1 = Ok a ->
  let session_name := session_or_default env session in
  (send_text_message env chat_id text session tr).2
  = tr ++ [HttpGetSession session_name;
           HttpPostSendText chat_id text session_name]
  /\ (post_sendtext env chat_id text session_name
        (tr ++ [HttpGetSession session_name])).1 = Ok a.
Proof.
  intros H session_name. revert H.
  unfold send_text_message. fold session_name.
  pose proof (check_session_status_trace env (Some session_name) tr) as Htr.
  unfold session_name in Htr at 2. rewrite session_or_default_idem in Htr.
  fold session_name in Htr.
  destruct (check_session_status env (Some session_name) tr) as [[st|e] tr1];
    cbn [snd] in Htr; subst tr1; [|done].
  destruct (session_gate session_name st); [|done].
  intros H. split; [|done].
  rewrite post_sendtext_trace. by rewrite <- app_assoc.
Qed.

(** X6: [send_text_message] returns a value only after the status query
    and one send request, and only when the response to that request has a
    status code other than 0 and below 400 that does not raise for status,
    with a body that decodes to the value returned. *)
Theorem send_text_message_returns env chat_id text session tr a :
  (send_text_message env chat_id text session tr).1 = Ok a ->
  let session_name := session_or_default env session in
  (send_text_message env chat_id text session tr).2
  = tr ++ [HttpGetSession session_name;
           HttpPostSendText chat_id text session_name]
  /\ exists code body,
       http_post_sendtext env (tr ++ [HttpGetSession session_name])
         chat_id text session_name = Response code body
       /\ code <> 0 /\ code < 400
       /\ raise_for_status env code = false
       /\ json_loads env body = Some a.
Proof.
  intros [Htr Hpost]%send_text_message_Ok session_name.
  split; [done|]. by apply post_sendtext_Ok in Hpost.
Qed.

Lemma post_sendtext_Raise env chat_id text session_name tr e :
  (post_sendtext env chat_id text session_name tr).1 = Raise e ->
  let reply := http_post_sendtext env tr chat_id text session_name in
  match e with
  | RequestAborted code s c =>
      s = session_name /\ c = chat_id
      /\ exists body, reply = Response code body
           /\ (code = 0
               \/ (500 <= code
                   /\ Py.contains "aborted" (Py.lower body) = true))
  | AuthenticationFailed body => reply = Response 401 body
  | ApiError code s c body =>
      s = session_name /\ c = chat_id /\ reply = Response code body
      /\ 400 <= code /\ code <> 401
  | StatusRaised code =>
      exists body, reply = Response code body /\ code < 400
                   /\ raise_for_status env code = true
  | CannotConnect => reply = ConnectError
  | SendTimedOut s c =>
      s = session_name /\ c = chat_id /\ reply = TimeoutException
  | TransportError r => r = OtherRequestError /\ reply = OtherRequestError
  | JSONDecodeError =>
      exists code body, reply = Response code body /\ code < 400
                        /\ json_loads env body = None
  | _ => False
  end.
Proof.
  cbv zeta. unfold post_sendtext.
  destruct (http_post_sendtext env tr chat_id text session_name)
    as [| | |code body]; try (by intros [= <-]).
  destruct (Z.eqb_spec code 0) as [->|Hne0]; cbn [orb].
  { intros [= <-]. split_and!; [done..|]. exists body. auto. }
  destruct (Z.leb_spec 500 code) as [H500|H500]; cbn [andb].
  - destruct (negb (bool_decide (body = "")) &&
              Py.contains "aborted" (Py.lower body)) eqn:Hab.
    + intros [= <-]. split_and!; [done..|]. exists body. split; [done|].
      right. split; [done|]. by apply andb_true_iff in Hab as [_ ?].
    + destruct (Z.eqb_spec code 401) as [->|Hne]; [lia|].
      destruct (Z.leb_spec 400 code); [|lia].
      intros [= <-]. done.
  - destruct (Z.eqb_spec code 401) as [->|Hne]; [by intros [= <-]|].
    destruct (Z.leb_spec 400 code) as [H400|H400]; [by intros [= <-]|].
    destruct (raise_for_status env code) eqn:Hr.
    + intros [= <-]. by exists body.
    + destruct (json_loads env body) eqn:Hj; [done|].
      intros [= <-]. by exists code, body.
Qed.

(** X7: what an exception of [send_text_message] tells.  The four errors
    of the status phase mean that nothing was sent.  Each error of the
    send phase names the answer to the send request: aborted for status 0
    or a 5xx whose body holds "aborted" in any case, authentication for
    401, an API error for any other status from 400 up, and the two
    network errors for a refused connection and for a timeout.  An
    attribute error never leaves the function. *)
Theorem send_text_message_error_cause env chat_id text session tr e :
  (send_text_message env chat_id text session tr).1 = Raise e ->
  let session_name := session_or_default env session in
  let reply := http_post_sendtext env (tr ++ [HttpGetSession session_name])
                 chat_id text session_name in
  match e with
  | SessionNotFound _ | StatusQueryError _ | SessionNotReady _ _ _ _ _
  | StatusCheckFailed _ =>
      (send_text_message env chat_id text session tr).2
      = tr ++ [HttpGetSession session_name]
  | RequestAborted code s c =>
      s = session_name /\ c = chat_id
      /\ exists body, reply = Response code body
           /\ (code = 0
               \/ (500 <= code
                   /\ Py.contains "aborted" (Py.lower body) = true))
  | AuthenticationFailed body => reply = Response 401 body
  | ApiError code s c body =>
      s = session_name /\ c = chat_id /\ reply = Response code body
      /\ 400 <= code /\ code <> 401
  | StatusRaised code =>
      exists body, reply = Response code body /\ code < 400
                   /\ raise_for_status env code = true
  | CannotConnect => reply = ConnectError
  | SendTimedOut s c =>
      s = session_name /\ c = chat_id /\ reply = TimeoutException
  | TransportError r => r = OtherRequestError /\ reply = OtherRequestError
  | JSONDecodeError =>
      exists code body, reply = Response code body /\ code < 400
                        /\ json_loads env body = None
  | AttributeError => False
  end.
Proof.
  intros H session_name reply. revert H.
  unfold send_text_message. fold session_name.
  pose proof (check_session_status_trace env (Some session_name) tr) as Htr.
  unfold session_name in Htr at 2. rewrite session_or_default_idem in Htr.
  fold session_name in Htr.
  assert (forall e0 : waha_error,
            match e0 with
            | SessionNotFound _ | StatusQueryError _ | SessionNotReady _ _ _ _ _
            | TransportError _ | JSONDecodeError | AttributeError => True
            | _ => False
            end ->
            match status_check_handler session_name e0 with
            | SessionNotFound _ | StatusQueryError _ | SessionNotReady _ _ _ _ _
            | StatusCheckFailed _ => True
            | _ => False
            end) as Hhandler.
  { intros e0. unfold status_check_handler. by destruct e0. }
  destruct (check_session_status env (Some session_name) tr) as [[st|e0] tr1]
    eqn:Hcheck; cbn [snd] in Htr; subst tr1.
  2:{ intros [= <-]. specialize (Hhandler e0).
      destruct (status_check_handler session_name e0); try done;
        exfalso; apply Hhandler; clear Hhandler;
        unfold check_session_status in Hcheck;
        repeat (case_match; simplify_eq; try done). }
  destruct (session_gate session_name st) as [u|e0] eqn:Hgate.
  2:{ intros [= <-]. specialize (Hhandler e0).
      destruct (status_check_handler session_name e0); try done;
        exfalso; apply Hhandler; clear Hhandler;
        unfold session_gate in Hgate;
        repeat (case_match; simplify_eq; try done). }
  intros H. apply post_sendtext_Raise in H. by destruct e.
Qed.

(** ** waha_client.py: _get_headers *)

(** X8: the headers always carry the JSON content type and at most one
    authentication header.  [Authorization] is there exactly for type
    Bearer and [X-Api-Key] exactly for type X-Api-Key, in both cases only
    with a key that is not blank, and the value holds the key without the
    white space around it; a blank or missing key, or any other type, adds
    nothing. *)
Theorem get_headers_auth api_key auth_type :
  let headers := _get_headers api_key auth_type in
  let key := Py.strip (default "" api_key) in
  headers !! "Content-Type" = Some "application/json"
  /\ headers !! "Authorization" =
       (if bool_decide (auth_type = "Bearer") && negb (bool_decide (key = ""))
        then Some ("Bearer " +:+ key) else None)
  /\ headers !! "X-Api-Key" =
       (if bool_decide (auth_type = "X-Api-Key") && negb (bool_decide (key = ""))
        then Some key else None)
  /\ (headers !! "Authorization" = None \/ headers !! "X-Api-Key" = None)
  /\ (forall name, is_Some (headers !! name) ->
        name ∈ ["Content-Type"; "Authorization"; "X-Api-Key"]).
Proof.
  intros headers key.
  assert ((headers = {["Content-Type" := "application/json"]}
           /\ (key = "" \/ (auth_type <> "Bearer" /\ auth_type <> "X-Api-Key")))
          \/ (auth_type = "Bearer" /\ key <> ""
              /\ headers = <["Authorization" := "Bearer " +:+ key]>
                             {["Content-Type" := "application/json"]})
          \/ (auth_type = "X-Api-Key" /\ key <> ""
              /\ headers = <["X-Api-Key" := key]>
                             {["Content-Type" := "application/json"]}))
    as Hcases.
  { unfold headers, key, _get_headers. destruct api_key as [k|]; cbn [default].
    2:{ left. split; [done|]. by left. }
    case_bool_decide as Hk0.
    { subst k. left. split; [done|]. by left. }
    case_bool_decide as Hn.
    { subst auth_type. left. split; [done|]. by right. }
    case_bool_decide as Hk.
    { left. split; [done|]. by left. }
    cbn [negb andb].
    case_bool_decide as Hb; [by right; left|].
    case_bool_decide as Hx; [by right; right|].
    left. split; [done|]. by right. }
  clearbody headers key.
  destruct Hcases as [[-> Hoff]|[(-> & Hk & ->)|(-> & Hk & ->)]].
  - assert (bool_decide (auth_type = "Bearer") && negb (bool_decide (key = ""))
            = false) as ->.
    { destruct Hoff as [->|[? ?]]; [by rewrite andb_false_r|].
      by rewrite bool_decide_eq_false_2. }
    assert (bool_decide (auth_type = "X-Api-Key") && negb (bool_decide (key = ""))
            = false) as ->.
    { destruct Hoff as [->|[? ?]]; [by rewrite andb_false_r|].
      by rewrite bool_decide_eq_false_2. }
    split_and!; try done; [by left|].
    intros name [v [<- _]%lookup_singleton_Some]. by left.
  - rewrite (bool_decide_eq_false_2 (key = "")) by done.
    split_and!; try done; [by right|].
    intros name [v Hv]. apply lookup_insert_Some in Hv as [[<- _]|[_ Hv]].
    + right. by left.
    + apply lookup_singleton_Some in Hv as [<- _]. by left.
  - rewrite (bool_decide_eq_false_2 (key = "")) by done.
    split_and!; try done; [by left|].
    intros name [v Hv]. apply lookup_insert_Some in Hv as [[<- _]|[_ Hv]].
    + right. right. by left.
    + apply lookup_singleton_Some in Hv as [<- _]. by left.
Qed.

(** ** main.py: send_message *)

Lemma check_session_status_unreachable env session tr :
  match http_get_session env tr (session_or_default env session) with
  | Response _ _ => False
  | _ => True
  end ->
  exists r, check_session_status env session tr
            = (Raise (TransportError r), tr ++ [HttpGetSession
                                                 (session_or_default env session)]).
Proof.
  unfold check_session_status.
  destruct (http_get_session env tr _); try done; by eexists.
Qed.

(** X9: when the status query gets no response (connection refused, timeout
    or another transport error), [send_message] answers 503 and no send
    request is made. *)
Theorem send_message_unreachable env chat_id text session tr :
  let session_name := session_or_default env session in
  match http_get_session env tr session_name with
  | Response _ _ => False
  | _ => True
  end ->
  send_message env chat_id text session tr
  = (Raise (MessageHTTPException 503 (Some (StatusCheckFailed session_name))),
     tr ++ [HttpGetSession session_name]).
Proof.
  intros session_name H. unfold send_message, send_text_message.
  fold session_name.
  destruct (check_session_status_unreachable env (Some session_name) tr)
    as [r Hr].
  { unfold session_name. by rewrite session_or_default_idem. }
  rewrite Hr. unfold session_name. by rewrite session_or_default_idem.
Qed.

Lemma send_message_unreachable_witness :
  send_message (demo_gateway ConnectError (Response 201 "sent"))
    "919920906247@c.us" "hello" None []
  = (Raise (MessageHTTPException 503 (Some (StatusCheckFailed "default"))),
     [] ++ [HttpGetSession "default"]).
Proof.
  exact (send_message_unreachable
           (demo_gateway ConnectError (Response 201 "sent"))
           "919920906247@c.us" "hello" None [] I).
Defined.

(** X10: when the status query returns an object with a textual status
    that does not pass the readiness rule, [send_message] answers 400 with
    the not-ready error and no send request is made. *)
Theorem send_message_not_ready env chat_id text session tr d s :
  let session_name := session_or_default env session in
  (check_session_status env (Some session_name) tr).1 = Ok (JObj d) ->
  dict_get_or d "status" (JStr "") = JStr s ->
  Readiness.allows d s = false ->
  send_message env chat_id text session tr
  = (Raise (MessageHTTPException 400
              (Some (Readiness.not_ready session_name d))),
     tr ++ [HttpGetSession session_name]).
Proof.
  intros session_name Hcheck Hs Ha. unfold send_message, send_text_message.
  fold session_name.
  pose proof (check_session_status_trace env (Some session_name) tr) as Htr.
  unfold session_name in Htr at 2. rewrite session_or_default_idem in Htr.
  fold session_name in Htr.
  destruct (check_session_status env (Some session_name) tr) as [r tr1].
  cbn [fst snd] in *. subst r tr1.
  by rewrite (session_gate_allows _ _ _ Hs), Ha.
Qed.

Lemma send_message_not_ready_witness :
  send_message (demo_gateway (Response 200 "status:working") (Response 201 "sent"))
    "919920906247@c.us" "hello" None []
  = (Raise (MessageHTTPException 400
              (Some (Readiness.not_ready "default"
                       [("name", JStr "default"); ("status", JStr "WORKING")]))),
     [] ++ [HttpGetSession "default"]).
Proof.
  exact (send_message_not_ready
           (demo_gateway (Response 200 "status:working") (Response 201 "sent"))
           "919920906247@c.us" "hello" None []
           [("name", JStr "default"); ("status", JStr "WORKING")] "WORKING"
           eq_refl eq_refl eq_refl).
Defined.

(** X11: when the send request is made and answered with a status code
    of 400 or more, [send_message] answers with that same status code. *)
Theorem send_message_passes_status env chat_id text session tr code body :
  let session_name := session_or_default env session in
  (send_text_message env chat_id text session tr).2
  = tr ++ [HttpGetSession session_name;
           HttpPostSendText chat_id text session_name] ->
  http_post_sendtext env (tr ++ [HttpGetSession session_name])
    chat_id text session_name = Response code body ->
  400 <= code ->
  exists e, (send_message env chat_id text session tr).1
            = Raise (MessageHTTPException code (Some e)).
Proof.
  intros session_name Htr Hreply Hcode. unfold send_message.
  revert Htr. unfold send_text_message. fold session_name.
  pose proof (check_session_status_trace env (Some session_name) tr) as Hc.
  unfold session_name in Hc at 2. rewrite session_or_default_idem in Hc.
  fold session_name in Hc.
  assert (forall a b : event, tr ++ [a] <> tr ++ [a; b]) as Hne.
  { intros a b H. by apply app_inv_head in H. }
  destruct (check_session_status env (Some session_name) tr) as [[st|e0] tr1];
    cbn [snd] in Hc; subst tr1; [|by intros ?%Hne].
  destruct (session_gate session_name st); [|by intros ?%Hne].
  intros _. unfold post_sendtext. rewrite Hreply.
  destruct (Z.eqb_spec code 0) as [->|_]; [lia|]. cbn [orb].
  destruct (_ && _); [by eexists|].
  destruct (Z.eqb_spec code 401) as [->|_]; [by eexists|].
  destruct (Z.leb_spec 400 code); [by eexists|lia].
Qed.

Lemma send_message_passes_status_witness :
  exists e,
    (send_message
       (demo_gateway (Response 200 "status:working+me") (Response 401 "denied"))
       "919920906247@c.us" "hello" None []).1
    = Raise (MessageHTTPException 401 (Some e)).
Proof.
  apply (send_message_passes_status
           (demo_gateway (Response 200 "status:working+me") (Response 401 "denied"))
           "919920906247@c.us" "hello" None [] 401 "denied");
    [reflexivity|reflexivity|lia].
Defined.

(** X12: a send that returns a decoded body that is not a JSON object is
    answered with 500, although the send request was made. *)
Theorem send_message_not_object env chat_id text session tr a :
  (send_text_message env chat_id text session tr).1 = Ok a ->
  is_object a = false ->
  let session_name := session_or_default env session in
  send_message env chat_id text session tr
  = (Raise (MessageHTTPException 500 None),
     tr ++ [HttpGetSession session_name;
            HttpPostSendText chat_id text session_name]).
Proof.
  intros H Ha session_name.
  pose proof (send_text_message_Ok _ _ _ _ _ _ H) as [Htr _].
  unfold send_message.
  destruct (send_text_message env chat_id text session tr) as [r tr1].
  cbn [fst snd] in *. subst r tr1. by rewrite Ha.
Qed.

Lemma send_message_not_object_witness :
  send_message
    (demo_gateway (Response 200 "status:working+me") (Response 200 "list"))
    "919920906247@c.us" "hello" None []
  = (Raise (MessageHTTPException 500 None),
     [] ++ [HttpGetSession "default";
            HttpPostSendText "919920906247@c.us" "hello" "default"]).
Proof.
  exact (send_message_not_object
           (demo_gateway (Response 200 "status:working+me") (Response 200 "list"))
           "919920906247@c.us" "hello" None [] (JArr []) eq_refl eq_refl).
Defined.

(** ** main.py: consume_notifications, record by record *)

(** X13: a record that is skipped makes no call at all; a record reported
    as success has made the status query and the send request, for the
    default session; a record reported as error has made the status query
    and at most one send request. *)
Theorem process_record_gateway env tp record st tr st' tr' :
  process_record env tp record st tr = (Ok st', tr') ->
  exists item evs,
    results st' = results st ++ [item] /\ tr' = tr ++ evs
    /\ (ConsumeResultItem.status item = "skipped" -> evs = [])
    /\ (ConsumeResultItem.status item = "success" ->
          exists chat_id text,
            evs = [HttpGetSession (default_session env);
                   HttpPostSendText chat_id text (default_session env)])
    /\ (ConsumeResultItem.status item = "error" ->
          queries_of evs = [default_session env]
          /\ (length (sends_of evs) <= 1)%nat).
Proof.
  assert (forall item, ConsumeResultItem.status item = "skipped" ->
            exists item' evs, results st ++ [item] = results st ++ [item']
              /\ tr = tr ++ evs
              /\ (ConsumeResultItem.status item' = "skipped" -> evs = [])
              /\ (ConsumeResultItem.status item' = "success" ->
                    exists chat_id text,
                      evs = [HttpGetSession (default_session env);
                             HttpPostSendText chat_id text (default_session env)])
              /\ (ConsumeResultItem.status item' = "error" ->
                    queries_of evs = [default_session env]
                    /\ (length (sends_of evs) <= 1)%nat)) as Hskip.
  { intros item Hi. exists item, []. rewrite app_nil_r, Hi. by split_and!. }
  unfold process_record.
  destruct (value record) as [raw|]; [|intros [= <- <-]; by apply Hskip].
  destruct (json_loads env raw) as [d|]; [|intros [= <- <-]; by apply Hskip].
  destruct (model_validate d) as [payload|].
  2:{ destruct (validation_item d) as [item|e] eqn:Hitem; [|done].
      intros [= <- <-]. apply Hskip.
      destruct d; try done. cbn in Hitem.
      repeat case_match; by simplify_eq. }
  case_bool_decide as Hblank; [intros [= <- <-]; by apply Hskip|].
  destruct (number_to_chat_id _) as [chat_id|];
    [|intros [= <- <-]; by apply Hskip].
  pose proof (send_text_message_Ok env chat_id
                (NotificationPayload.summary payload) None tr) as Hok.
  destruct (send_text_message_events env chat_id
              (NotificationPayload.summary payload) None tr)
    as (evs & Htr & Hq & Hs & _).
  destruct (send_text_message env chat_id _ None tr) as [[a|e] tr1];
    cbn [fst snd] in *; subst tr1; intros [= <- <-]; cbn [results].
  - eexists _, evs. split; [done|]. split; [done|]. cbn.
    split_and!; try done. intros _.
    destruct (Hok a eq_refl) as [Heq%app_inv_head _]. eauto.
  - eexists _, evs. split; [done|]. split; [done|]. cbn.
    split_and!; try done. intros _. split; [done|].
    apply sublist_length in Hs. cbn in Hs. lia.
Qed.

Lemma process_record_gateway_witness :
  exists item evs,
    [demo_item "+91 9920906247" "success" None] = [] ++ [item]
    /\ [HttpGetSession "default";
        HttpPostSendText "919920906247@c.us" "Results are out" "default"]
       = [] ++ evs
    /\ (ConsumeResultItem.status item = "skipped" -> evs = [])
    /\ (ConsumeResultItem.status item = "success" ->
          exists chat_id text,
            evs = [HttpGetSession "default";
                   HttpPostSendText chat_id text "default"])
    /\ (ConsumeResultItem.status item = "error" ->
          queries_of evs = ["default"] /\ (length (sends_of evs) <= 1)%nat).
Proof.
  exact (process_record_gateway (demo_env "status:working+me" None []) demo_tp
           (Rec 5 (Some "msg:alice")) initial_locals []
           (mkLocals [demo_item "+91 9920906247" "success" None] 1 0 0
              {[demo_tp := 6]})
           [HttpGetSession "default";
            HttpPostSendText "919920906247@c.us" "Results are out" "default"]
           eq_refl).
Defined.

Lemma process_records_poison env recs : forall st tr,
  (exists tp off raw d, (tp, Rec off (Some raw)) ∈ recs
     /\ json_loads env raw = Some d /\ is_object d = false) ->
  exists e tr', process_records env None recs st tr = (Raise e, tr').
Proof.
  induction recs as [|[tp0 record] recs IH]; intros st tr
    (tp & off & raw & d & Hin & Hd & Hobj).
  { by apply elem_of_nil in Hin. }
  rewrite process_records_cons. cbn [cap_reached].
  destruct (process_record env tp0 record st tr) as [[st1|e] tr1] eqn:H1;
    [|by eexists _, _].
  apply elem_of_cons in Hin as [[= <- <-]|Hin].
  - unfold process_record in H1. cbn [value] in H1. rewrite Hd in H1.
    destruct d; done.
  - apply IH. by exists tp, off, raw, d.
Qed.

(** X14: without a cap, one record whose body decodes to something other
    than a JSON object makes the whole invocation fail with 500: no result
    is returned, whatever was sent before, and nothing is committed. *)
Theorem consume_notifications_poison env poll_timeout_ms tr batch tp off raw d :
  kafka_start env tr = true ->
  kafka_getmany env (tr ++ [KafkaStart]) poll_timeout_ms = Some batch ->
  (tp, Rec off (Some raw)) ∈ flatten_batch batch ->
  json_loads env raw = Some d ->
  is_object d = false ->
  (forall t, kafka_stop env t = true) ->
  exists e evs,
    consume_notifications env None poll_timeout_ms tr
    = (Raise (HTTPException 500 (UnexpectedError e)), tr ++ evs)
    /\ commits_of evs = [].
Proof.
  intros Hstart Hfetch Hin Hd Hobj Hstop.
  unfold consume_notifications, consume_body.
  rewrite Hstart, Hfetch. cbn [negb].
  destruct (process_records_poison env (sort_recs (flatten_batch batch))
              initial_locals ((tr ++ [KafkaStart]) ++ [KafkaGetmany poll_timeout_ms]))
    as (e & tr' & Hloop).
  { exists tp, off, raw, d. by rewrite sort_recs_perm. }
  destruct (process_records_events env None (sort_recs (flatten_batch batch))
              initial_locals ((tr ++ [KafkaStart]) ++ [KafkaGetmany poll_timeout_ms]))
    as (e1 & Htr & Hc).
  rewrite Hloop in Htr |- *. cbn [snd] in Htr. subst tr'.
  rewrite Hstop. cbn [negb].
  exists e, ([KafkaStart; KafkaGetmany poll_timeout_ms] ++ e1 ++ [KafkaStop]).
  split; [by rewrite <- !app_assoc|].
  by rewrite !commits_of_app, Hc.
Qed.

Lemma consume_notifications_poison_witness :
  exists e evs,
    consume_notifications demo_poison_env None 5000 []
    = (Raise (HTTPException 500 (UnexpectedError e)), [] ++ evs)
    /\ commits_of evs = [].
Proof.
  apply (consume_notifications_poison demo_poison_env 5000 []
           demo_batch_poison demo_tp 21 "list" (JArr []));
    [reflexivity|reflexivity| |reflexivity|reflexivity|reflexivity].
  unfold demo_batch_poison. cbn. apply elem_of_cons. right.
  apply elem_of_cons. by left.
Defined.

Lemma consume_notifications_contiguous_witness :
  let recs := sort_recs (flatten_batch demo_batch_gap) in
  exists st tr2 first,
    process_records (demo_env "status:working+me" None demo_batch_gap) (Some 2)
      recs initial_locals ([] ++ [KafkaStart; KafkaGetmany 5000]) = (Ok st, tr2)
    /\ ({[demo_tp := 7]} : gmap TopicPartition Z) = last_committable st
    /\ first_passed recs (results st) demo_tp first
    /\ first < 7
    /\ forall k, first <= k < 7 ->
         passed recs (results st) demo_tp k /\ fetched demo_batch_gap demo_tp k.
Proof.
  apply (consume_notifications_contiguous
           (demo_env "status:working+me" None demo_batch_gap) (Some 2) 5000 []
           demo_batch_gap
           [KafkaStart; KafkaGetmany 5000;
            HttpGetSession "default";
            HttpPostSendText "919920906247@c.us" "Results are out" "default";
            HttpGetSession "default";
            HttpPostSendText "919820000001@c.us" "Board meeting" "default";
            KafkaCommit {[demo_tp := 7]}; KafkaStop]
           {[demo_tp := 7]} demo_tp 7).
  - reflexivity.
  - vm_compute. reflexivity.
  - apply list_elem_of_singleton. reflexivity.
  - reflexivity.
Defined.

Lemma process_records_monotone_witness :
  exists o', ({[demo_tp := 7]} : gmap TopicPartition Z) !! demo_tp = Some o'
             /\ 6 <= o'.
Proof.
  assert (process_records (demo_env "status:working+me" None []) None
            [(demo_tp, Rec 6 (Some "msg:bob"))]
            (mkLocals [] 0 0 0 {[demo_tp := 6]}) []
          = (Ok (mkLocals [demo_item "919820000001" "success" None] 1 0 0
                   {[demo_tp := 7]}),
             [HttpGetSession "default";
              HttpPostSendText "919820000001@c.us" "Board meeting" "default"]))
    as Hrun by (vm_compute; reflexivity).
  exact (process_records_monotone _ _ _ _ _ _ _ Hrun demo_tp 6 eq_refl).
Defined.

(** ** recipients.py: canonical addresses *)

Lemma chars_app a b : Py.chars (a +:+ b) = Py.chars a ++ Py.chars b.
Proof.
  unfold Py.chars. induction a as [|c a IH]; [done|].
  change (String c a +:+ b) with (String c (a +:+ b)).
  cbn [list_ascii_of_string]. by rewrite IH.
Qed.

Lemma text_app l1 l2 : Py.text (l1 ++ l2) = Py.text l1 +:+ Py.text l2.
Proof.
  unfold Py.text. induction l1 as [|c l1 IH]; [done|].
  cbn [app string_of_list_ascii]. rewrite IH. done.
Qed.

Lemma digits_of_app a b :
  Py.digits_of (a +:+ b) = Py.digits_of a +:+ Py.digits_of b.
Proof. unfold Py.digits_of. by rewrite chars_app, filter_app, text_app. Qed.

Lemma digits_of_digits s : Py.digits_of (Py.digits_of s) = Py.digits_of s.
Proof.
  unfold Py.digits_of. rewrite chars_text. f_equal.
  rewrite list_filter_filter. apply list_filter_iff. tauto.
Qed.

Lemma digits_of_all_digits s :
  Forall (fun c => Py.is_digit c = true) (Py.chars (Py.digits_of s)).
Proof.
  unfold Py.digits_of. rewrite chars_text. apply Forall_forall.
  by intros c [? _]%list_elem_of_filter.
Qed.

Lemma number_to_chat_id_Some raw chat_id :
  number_to_chat_id raw = Some chat_id ->
  chat_id = Py.digits_of raw +:+ "@c.us" /\ 10 <= Py.len (Py.digits_of raw).
Proof.
  unfold number_to_chat_id.
  destruct (Z.leb_spec 10 (Py.len (Py.digits_of raw))); [|done].
  by intros [= <-].
Qed.

Lemma number_to_chat_id_fixed raw chat_id :
  number_to_chat_id raw = Some chat_id ->
  number_to_chat_id chat_id = Some chat_id.
Proof.
  intros [-> Hlen]%number_to_chat_id_Some. unfold number_to_chat_id.
  rewrite digits_of_app, digits_of_digits.
  change (Py.digits_of "@c.us") with "".
  assert (forall s, s +:+ "" = s) as Hnil.
  { intros s. induction s as [|c s IH]; [done|].
    change (String c s +:+ "") with (String c (s +:+ "")). by rewrite IH. }
  rewrite Hnil. by rewrite (proj2 (Z.leb_le _ _) Hlen).
Qed.

(** X15: an address produced by [number_to_chat_id] is canonical: it is
    made of at least ten characters that are all digits, followed by
    [@c.us], and [number_to_chat_id] maps it to itself. *)
Theorem number_to_chat_id_canonical raw chat_id :
  number_to_chat_id raw = Some chat_id ->
  number_to_chat_id chat_id = Some chat_id
  /\ exists digits,
       chat_id = digits +:+ "@c.us"
       /\ 10 <= Py.len digits
       /\ Forall (fun c => Py.is_digit c = true) (Py.chars digits).
Proof.
  intros H. split; [by eapply number_to_chat_id_fixed|].
  apply number_to_chat_id_Some in H as [-> Hlen].
  exists (Py.digits_of raw). split; [done|]. split; [done|].
  apply digits_of_all_digits.
Qed.

Lemma number_to_chat_id_canonical_witness :
  number_to_chat_id "919920906247@c.us" = Some "919920906247@c.us"
  /\ exists digits,
       "919920906247@c.us" = digits +:+ "@c.us"
       /\ 10 <= Py.len digits
       /\ Forall (fun c => Py.is_digit c = true) (Py.chars digits).
Proof.
  exact (number_to_chat_id_canonical "+91 99209-06247" "919920906247@c.us"
           eq_refl).
Defined.

Lemma load_lines_parse lines : load_lines lines = Resolver.parse_lines lines.
Proof.
  unfold load_lines. rewrite (load_loop_parse lines ∅ []) by set_solver.
  cbn [app]. apply filter_not_elem_nil.
Qed.

Lemma parse_lines_elem lines a :
  a ∈ Resolver.parse_lines lines ->
  exists l, l ∈ lines /\ number_to_chat_id l = Some a.
Proof.
  unfold Resolver.parse_lines. rewrite dedup_first_elem, list_elem_of_omap.
  intros (l & [_ Hl]%list_elem_of_filter & Hn). exists l.
  by rewrite number_to_chat_id_normalize.
Qed.

(** X16: a missing file gives no recipient; for any file the recipients
    are pairwise distinct and every one is a canonical address, which
    [number_to_chat_id] maps to itself. *)
Theorem load_recipients_canonical :
  load_recipients None = []
  /\ forall file,
       NoDup (load_recipients file)
       /\ Forall (fun a => number_to_chat_id a = Some a) (load_recipients file).
Proof.
  split; [done|]. intros [text|]; cbn [load_recipients].
  2:{ split; constructor. }
  rewrite load_lines_parse. split; [apply dedup_first_NoDup|].
  apply Forall_forall. intros a (l & _ & Hl)%parse_lines_elem.
  by eapply number_to_chat_id_fixed.
Qed.

Lemma load_step_seen lines : forall (seen : gset string) (result : list string),
  (forall x, x ∈ seen <-> x ∈ result) ->
  forall x, x ∈ (foldl load_step (seen, result) lines).1
            <-> x ∈ (foldl load_step (seen, result) lines).2.
Proof.
  induction lines as [|line lines IH]; intros seen result Hseen; [done|].
  cbn [foldl]. rewrite load_step_entry.
  destruct (if Resolver.is_entry_line line then Resolver.normalize line else None)
    as [chat_id|]; [|by apply IH].
  case_bool_decide; [by apply IH|]. apply IH.
  intros x. rewrite elem_of_union, elem_of_singleton, elem_of_app,
    list_elem_of_singleton, Hseen. tauto.
Qed.

(** X17: the recipients of two lists of lines put one after the other are
    those of the first list followed by those of the second that the
    first does not already give. *)
Theorem load_lines_app lines1 lines2 :
  load_lines (lines1 ++ lines2)
  = load_lines lines1
    ++ filter (fun a => a ∉ load_lines lines1) (load_lines lines2).
Proof.
  unfold load_lines at 1. rewrite foldl_app.
  assert (forall x, x ∈ (foldl load_step (∅, []) lines1).1
                    <-> x ∈ (foldl load_step (∅, []) lines1).2) as Hseen.
  { apply load_step_seen. set_solver. }
  rewrite (surjective_pairing (foldl load_step (∅, []) lines1)) at 1.
  rewrite (load_loop_parse lines2 _ _ Hseen), <- load_lines_parse.
  done.
Qed.

(** ** config.py *)

Lemma lstrip_suffix l : exists k, l = k ++ Py.lstrip l.
Proof.
  induction l as [|c l [k IH]]; [by exists []|]. cbn.
  destruct (Py.is_space c); [|by exists []].
  exists (c :: k). cbn. by rewrite <- IH.
Qed.

Lemma lstrip_head l :
  match Py.lstrip l with c :: _ => Py.is_space c = false | [] => True end.
Proof.
  induction l as [|c l IH]; [done|]. cbn.
  by destruct (Py.is_space c) eqn:Hc; [|rewrite Hc].
Qed.

Lemma lstrip_fixed l :
  match l with c :: _ => Py.is_space c = false | [] => True end ->
  Py.lstrip l = l.
Proof. destruct l as [|c l]; [done|]. cbn. by intros ->. Qed.

(** The characters left by [strip]: no white space at either end. *)
Lemma strip_ends s :
  let l := Py.chars (Py.strip s) in
  match l with c :: _ => Py.is_space c = false | [] => True end
  /\ match reverse l with c :: _ => Py.is_space c = false | [] => True end.
Proof.
  cbv zeta. unfold Py.strip. rewrite chars_text, reverse_involutive.
  set (l1 := Py.lstrip (Py.chars s)).
  pose proof (lstrip_head (Py.chars s)) as H1. fold l1 in H1.
  pose proof (lstrip_head (reverse l1)) as H2.
  destruct (lstrip_suffix (reverse l1)) as [k Hk].
  split; [|done].
  destruct (Py.lstrip (reverse l1)) as [|c l2] eqn:Hl2; [done|].
  apply (f_equal reverse) in Hk.
  rewrite reverse_involutive, reverse_app in Hk.
  destruct (reverse (c :: l2)) as [|c' l'] eqn:Hr.
  { apply (f_equal length) in Hr. rewrite length_reverse in Hr. done. }
  rewrite Hk in H1. done.
Qed.

Lemma strip_strip s : Py.strip (Py.strip s) = Py.strip s.
Proof.
  destruct (strip_ends s) as [H1 H2]. cbv zeta in *.
  unfold Py.strip at 1.
  rewrite (lstrip_fixed _ H1), (lstrip_fixed _ H2), reverse_involutive.
  apply text_chars.
Qed.






Lemma auth_map_values name a :
  Config.auth_map !! name = Some a -> a ∈ ["X-Api-Key"; "Bearer"; "none"].
Proof.
  unfold Config.auth_map.
  intros [[_ <-]|[_ [[_ <-]|[_ [_ <-]%lookup_singleton_Some]]%lookup_insert_Some]]
    %lookup_insert_Some;
    rewrite !elem_of_cons; auto.
Qed.

(** X19: a variable of the environment wins over the auth file, field by
    field: the key is taken from the file only when WAHA_API_KEY is not in
    the environment and the file gives a non-empty one, which is kept
    without the white space around it; the auth type is taken from the
    file only when WAHA_AUTH_TYPE is not in the environment and the file
    names, in any case of letters, one of the three types.  An auth type
    that was one of the three types stays one of them. *)
Theorem load_auth_from_file_precedence environ parsed self :
  let out := Config._load_auth_from_file environ parsed self in
  Config.waha_api_key out =
    match environ !! "WAHA_API_KEY", parsed !! "WAHA_API_KEY" with
    | None, Some k =>
        if bool_decide (k = "") then Config.waha_api_key self
        else Some (Py.strip k)
    | _, _ => Config.waha_api_key self
    end
  /\ Config.waha_auth_type out =
       match environ !! "WAHA_AUTH_TYPE", parsed !! "WAHA_AUTH_TYPE" with
       | None, Some t =>
           default (Config.waha_auth_type self)
             (Config.auth_map !! Py.lower (Py.strip t))
       | _, _ => Config.waha_auth_type self
       end
  /\ (Config.waha_auth_type self ∈ ["X-Api-Key"; "Bearer"; "none"] ->
      Config.waha_auth_type out ∈ ["X-Api-Key"; "Bearer"; "none"]).
Proof.
  intros out.
  assert (Config.waha_api_key out =
            match environ !! "WAHA_API_KEY", parsed !! "WAHA_API_KEY" with
            | None, Some k =>
                if bool_decide (k = "") then Config.waha_api_key self
                else Some (Py.strip k)
            | _, _ => Config.waha_api_key self
            end
          /\ Config.waha_auth_type out =
               match environ !! "WAHA_AUTH_TYPE", parsed !! "WAHA_AUTH_TYPE" with
               | None, Some t =>
                   default (Config.waha_auth_type self)
                     (Config.auth_map !! Py.lower (Py.strip t))
               | _, _ => Config.waha_auth_type self
               end) as [Hkey Htype].
  { unfold out, Config._load_auth_from_file.
    case_bool_decide as Hempty.
    { subst parsed. rewrite !lookup_empty.
      by destruct (environ !! "WAHA_API_KEY"), (environ !! "WAHA_AUTH_TYPE"). }
    destruct (parsed !! "WAHA_API_KEY") as [k|],
             (parsed !! "WAHA_AUTH_TYPE") as [t|],
             (environ !! "WAHA_API_KEY") as [ek|],
             (environ !! "WAHA_AUTH_TYPE") as [et|];
      rewrite ?bool_decide_eq_true_2 by eauto;
      rewrite ?(bool_decide_eq_false_2 (is_Some None)) by (by intros [? ?]);
      cbn [negb andb];
      try destruct (bool_decide (k = ""));
      try destruct (Config.auth_map !! Py.lower (Py.strip t));
      done. }
  split; [done|]. split; [done|]. rewrite Htype. intros Hin.
  destruct (environ !! "WAHA_AUTH_TYPE"); [done|].
  destruct (parsed !! "WAHA_AUTH_TYPE") as [t|]; [|done].
  destruct (Config.auth_map !! Py.lower (Py.strip t)) as [a|] eqn:Ha; [|done].
  by eapply auth_map_values.
Qed.

Lemma strip_empty_of_empty k : k = "" -> Py.strip k = "".
Proof. by intros ->. Qed.

(** X20: [model_post_init] leaves the auth type alone and leaves a key
    that has no white space around it; applying it twice is applying it
    once; and the headers built from the cleaned key are those built from
    the key as it was.  An empty key stays an empty string, a key of white
    space only becomes none. *)
Theorem model_post_init_clean self :
  let out := Config.model_post_init self in
  Config.waha_auth_type out = Config.waha_auth_type self
  /\ match Config.waha_api_key out with
     | Some k => Py.strip k = k
     | None => True
     end
  /\ Config.model_post_init out = out
  /\ _get_headers (Config.waha_api_key out) (Config.waha_auth_type out)
     = _get_headers (Config.waha_api_key self) (Config.waha_auth_type self)
  /\ Config.model_post_init (Config.mkSettings (Some "") (Config.waha_auth_type self))
     = Config.mkSettings (Some "") (Config.waha_auth_type self)
  /\ Config.model_post_init (Config.mkSettings (Some "  ") (Config.waha_auth_type self))
     = Config.mkSettings None (Config.waha_auth_type self).
Proof.
  intros out. unfold out, Config.model_post_init.
  destruct self as [[k|] t]; cbn [Config.waha_api_key Config.waha_auth_type];
    [|done].
  case_bool_decide as Hk0.
  { subst k. cbn. done. }
  case_bool_decide as Hk.
  { cbn. split_and!; try done. unfold _get_headers.
    rewrite (bool_decide_eq_true_2 (Py.strip k = "")) by done.
    by rewrite !andb_false_r. }
  cbn [Config.waha_api_key Config.waha_auth_type].
  rewrite strip_strip.
  assert (Py.strip k <> "" -> bool_decide (Py.strip k = "") = false) as Hf.
  { intros ?. by apply bool_decide_eq_false_2. }
  rewrite (Hf Hk). split_and!; try done.
  unfold _get_headers. rewrite strip_strip, (Hf Hk).
  by rewrite (bool_decide_eq_false_2 (k = "")) by done.
Qed.

(** ** main.py: consume_notifications, the answer of the handler *)

(** X21: the handler answers 503 exactly when the consumer cannot be
    started; a failure of the fetch, of a record or of the commit is
    never a 503. *)
Theorem consume_notifications_unavailable env max_messages poll_timeout_ms tr :
  (exists detail,
     (consume_notifications env max_messages poll_timeout_ms tr).1
     = Raise (HTTPException 503 detail))
  <-> kafka_start env tr = false.
Proof.
  unfold consume_notifications.
  destruct (kafka_start env tr); cbn [negb]; [|split; eauto].
  split; [|done]. intros [detail H]. revert H.
  destruct (consume_body env max_messages poll_timeout_ms (tr ++ [KafkaStart]))
    as [[st|e] tr2]; by destruct (kafka_stop env tr2).
Qed.

(** X22: a failed send on the first record of a partition does not hold
    the frontier back.  For two records at offsets off and off + 1, the
    first failing to send and the second delivered, the handler returns
    failed 1 and processed 1 and commits off + 2: the commit covers the
    record whose send failed. *)
Theorem consume_notifications_failed_first env tp off raw1 raw2 max_messages
    poll_timeout_ms tr :
  kafka_start env tr = true ->
  kafka_getmany env (tr ++ [KafkaStart]) poll_timeout_ms
  = Some [(tp, [Rec off (Some raw1); Rec (off + 1) (Some raw2)])] ->
  send_fails env raw1 ->
  delivers env raw2 ->
  match max_messages with Some m => 2 <= m | None => True end ->
  (forall t o, kafka_commit env t o = true) ->
  (forall t, kafka_stop env t = true) ->
  exists item1 item2 evs,
    consume_notifications env max_messages poll_timeout_ms tr
    = (Ok (ConsumeNotificationsResponse.mk "success" 1 1 0 [item1; item2]),
       tr ++ evs)
    /\ ConsumeResultItem.status <$> [item1; item2] = ["error"; "success"]
    /\ commits_of evs = [{[tp := off + 2]}].
Proof.
  intros Hstart Hfetch H1 H2 Hcap Hcommit Hstop.
  unfold consume_notifications, consume_body.
  rewrite Hstart, Hfetch. cbn [negb].
  rewrite sort_recs_sorted.
  2:{ cbn. repeat constructor; rewrite key_le_same_partition; cbn; lia. }
  change (flatten_batch _)
    with [(tp, Rec off (Some raw1)); (tp, Rec (off + 1) (Some raw2))].
  set (tr0 := (tr ++ [KafkaStart]) ++ [KafkaGetmany poll_timeout_ms]).
  destruct (process_record_send_fails env raw1 tp off initial_locals tr0 H1)
    as (item1 & e1 & H1' & Hs1 & Hc1).
  set (st1 := fail_record initial_locals item1) in *.
  destruct (process_record_delivers env raw2 tp (off + 1) st1 (tr0 ++ e1) H2)
    as (item2 & e2 & H2' & Hs2 & Hc2).
  set (st2 := succeed_record st1 tp (Rec (off + 1) (Some raw2)) item2) in *.
  assert (forall st, counted st < 2 -> cap_reached max_messages st = false)
    as Hgo.
  { intros st Hst. apply cap_not_reached. destruct max_messages; [lia|done]. }
  rewrite process_records_cons, (Hgo initial_locals) by done.
  rewrite H1', process_records_cons, (Hgo st1) by done.
  rewrite H2'. cbn [process_records].
  assert (last_committable st2 = {[tp := off + 2]}) as Hlc.
  { unfold st2, st1.
    cbn [fail_record succeed_record last_committable initial_locals offset].
    rewrite advance_fresh. f_equal. lia. }
  rewrite Hlc.
  rewrite bool_decide_eq_false_2 by apply singleton_nonempty.
  rewrite Hcommit, Hstop. cbn [negb].
  exists item1, item2,
    ([KafkaStart; KafkaGetmany poll_timeout_ms] ++ e1 ++ e2
     ++ [KafkaCommit {[tp := off + 2]}; KafkaStop]).
  split; [unfold tr0; by rewrite <- !app_assoc|].
  split; [cbn; by rewrite Hs1, Hs2|].
  by rewrite !commits_of_app, Hc1, Hc2.
Qed.

Lemma consume_notifications_failed_first_witness :
  exists item1 item2 evs,
    consume_notifications
      (demo_env "status:working+me" None demo_batch_failed_first) None 5000 []
    = (Ok (ConsumeNotificationsResponse.mk "success" 1 1 0 [item1; item2]),
       [] ++ evs)
    /\ ConsumeResultItem.status <$> [item1; item2] = ["error"; "success"]
    /\ commits_of evs = [{[demo_tp := 30 + 2]}].
Proof.
  apply (consume_notifications_failed_first
           (demo_env "status:working+me" None demo_batch_failed_first) demo_tp 30
           "msg:unreachable" "msg:bob" None 5000 []).
  - reflexivity.
  - reflexivity.
  - apply demo_send_fails.
  - apply (demo_delivers None demo_batch_failed_first "msg:bob" "Board meeting"
             "919820000001" "919820000001@c.us");
      [reflexivity|vm_compute; discriminate|reflexivity|reflexivity].
  - exact I.
  - reflexivity.
  - reflexivity.
Defined.

Lemma send_text_message_returns_witness :
  [HttpGetSession "default";
   HttpPostSendText "919920906247@c.us" "hello" "default"]
  = [] ++ [HttpGetSession "default";
           HttpPostSendText "919920906247@c.us" "hello" "default"]
  /\ exists code body,
       Response 201 "sent" = Response code body
       /\ code <> 0 /\ code < 400
       /\ negb ((200 <=? code) && (code <? 300)) = false
       /\ demo_loads body = Some (JObj [("id", JStr "true_1")]).
Proof.
  exact (send_text_message_returns (demo_env "status:working+me" None [])
           "919920906247@c.us" "hello" None [] (JObj [("id", JStr "true_1")])
           eq_refl).
Defined.

Lemma send_text_message_error_cause_witness :
  Response 401 "denied" = Response 401 "denied".
Proof.
  exact (send_text_message_error_cause
           (demo_gateway (Response 200 "status:working+me") (Response 401 "denied"))
           "919920906247@c.us" "hello" None [] (AuthenticationFailed "denied")
           eq_refl).
Defined.
